(** * Role-management frontend: view models, create-role form, toolbar

    A shallow embedding of the client-side TypeScript of the role-management
    application (React components under [src/]) and the properties its
    specification states about them.

    Conventions of the embedding:
    - a JavaScript number that the code only uses as an integer is a [Z];
      [NaN] is kept apart in [JS.Num];
    - a JavaScript string is a [string];
    - a value that may be [undefined] is an [option];
    - a promise chain [fetch(..).then(f).then(g).catch(h)] is a computation
      in the error monad [JS.Result]: a rejected promise or an exception
      thrown inside a handler is [Throw], and [catch] is the only consumer;
    - React state ([useState]) is a record field, a state setter is a
      function to the next record, and every handler runs to completion. *)

From Stdlib Require Import ZArith List String Ascii Bool Lia.
From Stdlib Require Import DecimalString DecimalPos DecimalZ FinFun.
Import ListNotations.

Set Warnings "-register-all".

Open Scope string_scope.
Open Scope list_scope.
Open Scope Z_scope.

(* ================================================================== *)
(** ** JavaScript values and built-ins used by the components *)
(* ================================================================== *)

Module JS.

(** A number: [NaN], an integer or an infinity. Every number the modelled
    code touches is an identifier, a calendar field or the result of
    [parseInt], which is [NaN], an integer or, from 2^1024, [Infinity]. *)
Inductive Num : Type :=
| NaN
| Int (z : Z)
| Infinity (negative : bool).

(** [a + b] on numbers: [NaN] is absorbing, and so is an infinity but for
    the infinity of the other sign. *)
Definition Num_add (a b : Num) : Num :=
  match a, b with
  | Int x, Int y => Int (x + y)
  | Infinity s, Int _ | Int _, Infinity s => Infinity s
  | Infinity s, Infinity s' => if Bool.eqb s s' then Infinity s else NaN
  | NaN, _ | _, NaN => NaN
  end.

(** [String(z)] and [z.toString()] for an integer [z] up to 2^53 in
    absolute value: its decimal digits, after a minus sign when it is
    negative. A larger number is printed from the fewest digits that tell it
    from its neighbours, zeros after them, and from 10^21 in exponent
    notation ([1e+21]), which this function does not follow: what is stated
    of the text of an identifier is stated of identifiers that are safe
    integers. *)
Definition String_of_Z (z : Z) : string :=
  NilEmpty.string_of_int (Z.to_int z).

(** [String(n)] for a number. *)
Definition String_of_Num (n : Num) : string :=
  match n with
  | NaN => "NaN"
  | Int z => String_of_Z z
  | Infinity false => "Infinity"
  | Infinity true => "-Infinity"
  end.

(** The first [n] characters of [pad] repeated for ever, [cur] being what is
    left of the current copy. *)
Fixpoint cycle (pad cur : string) (n : nat) : string :=
  match n with
  | O => ""
  | S k =>
      match cur with
      | String c rest => String c (cycle pad rest k)
      | EmptyString =>
          match pad with
          | String c rest => String c (cycle pad rest k)
          | EmptyString => ""
          end
      end
  end.

(** [s.padStart(targetLength, padString)]. *)
Definition padStart (s : string) (targetLength : nat) (padString : string)
  : string :=
  if (targetLength <=? String.length s)%nat then s
  else if String.eqb padString "" then s
  else (cycle padString padString (targetLength - String.length s) ++ s)%string.

(** The outcome of a computation that may throw. *)
Inductive Error : Type :=
| ErrorMsg (message : string)      (* [new Error(message)] *)
| TypeError (message : string)     (* raised by the engine *)
| SyntaxError (message : string)   (* raised by [res.json()] *)
| RangeError (message : string).   (* raised by a library on a bad value *)

(** [err.message]. *)
Definition message (e : Error) : string :=
  match e with
  | ErrorMsg m | TypeError m | SyntaxError m | RangeError m => m
  end.

Inductive Result (A : Type) : Type :=
| Ok (a : A)
| Throw (e : Error).
Arguments Ok {A} a.
Arguments Throw {A} e.

Definition bind {A B : Type} (m : Result A) (k : A -> Result B) : Result B :=
  match m with
  | Ok a => k a
  | Throw e => Throw e
  end.

(** [p.catch(h)]: the handler consumes the error; a fulfilled promise passes
    through. *)
Definition catch {A : Type} (m : Result A) (h : Error -> A) : A :=
  match m with
  | Ok a => a
  | Throw e => h e
  end.

(** *** Dynamically typed values

    What [res.json()] can produce, [undefined], and a method of a built-in
    prototype, known by its name. An object keeps its members in insertion
    order; the first occurrence of a key is its value. *)
Inductive JsVal : Type :=
| JUndefined
| JNull
| JBool (b : bool)
| JNum (n : Num)
| JStr (s : string)
| JArr (items : list JsVal)
| JObj (members : list (string * JsVal))
| JFunction (name : string).

(** Truthiness: [undefined], [null], [false], [NaN], [0] and [""] are falsy. *)
Definition truthy (v : JsVal) : bool :=
  match v with
  | JUndefined | JNull => false
  | JBool b => b
  | JNum NaN => false
  | JNum (Int z) => negb (Z.eqb z 0)
  | JNum (Infinity _) => true
  | JStr s => negb (String.eqb s "")
  | JArr _ | JObj _ | JFunction _ => true
  end.

(** [a || b]. *)
Definition or_else (a b : JsVal) : JsVal := if truthy a then a else b.

(** [String(v)]. An array joins its elements with commas, [undefined] and
    [null] elements giving the empty string. *)
Fixpoint ToString (v : JsVal) : string :=
  match v with
  | JUndefined => "undefined"
  | JNull => "null"
  | JBool true => "true"
  | JBool false => "false"
  | JNum n => String_of_Num n
  | JStr s => s
  | JArr items =>
      (fix join (l : list JsVal) : string :=
         match l with
         | [] => ""
         | x :: rest =>
             let sx := match x with
                       | JUndefined | JNull => ""
                       | _ => ToString x
                       end in
             match rest with
             | [] => sx
             | _ :: _ => (sx ++ "," ++ join rest)%string
             end
         end) items
  | JObj _ => "[object Object]"
  | JFunction name => "function " ++ name ++ "() { [native code] }"
  end.

(** The first member named [k]. *)
Fixpoint lookup {A : Type} (k : string) (members : list (string * A))
  : option A :=
  match members with
  | [] => None
  | (k', v) :: rest => if String.eqb k k' then Some v else lookup k rest
  end.

(** An array index written canonically: ["0"], ["1"], ["17"], never
    ["01"] or ["-1"]. *)
Definition array_index (k : string) : option nat :=
  match NilEmpty.uint_of_string k with
  | Some u =>
      let n := Nat.of_uint u in
      if String.eqb (String_of_Z (Z.of_nat n)) k then Some n else None
  | None => None
  end.

(** [v[k]] and [v.k] for the keys the components read, which are member
    names of the API's JSON and numerals. Of these only [match] is a property
    of a prototype: the method of that name that every string has. Reading
    from [undefined] or [null] throws, every other miss is [undefined]. *)
Definition get (v : JsVal) (k : string) : Result JsVal :=
  match v with
  | JUndefined =>
      Throw (TypeError ("Cannot read properties of undefined (reading '"
                          ++ k ++ "')"))
  | JNull =>
      Throw (TypeError ("Cannot read properties of null (reading '"
                          ++ k ++ "')"))
  | JObj members =>
      Ok (match lookup k members with Some x => x | None => JUndefined end)
  | JArr items =>
      Ok (match array_index k with
          | Some i => nth i items JUndefined
          | None => JUndefined
          end)
  | JStr s =>
      Ok (match array_index k with
          | Some i =>
              match String.get i s with
              | Some c => JStr (String c "")
              | None => JUndefined
              end
          | None => if String.eqb k "match" then JFunction "match"
                    else JUndefined
          end)
  | JBool _ | JNum _ | JFunction _ => Ok JUndefined
  end.

(** [a.concat(b)]: an array argument is spread, any other is appended as one
    element; a string receiver concatenates [String(b)]; no other JSON value
    has a [concat] method. *)
Definition concat (a b : JsVal) : Result JsVal :=
  match a with
  | JArr l =>
      Ok (JArr (match b with
                | JArr l' => l ++ l'
                | _ => l ++ [b]
                end))
  | JStr s => Ok (JStr (s ++ ToString b))
  | JUndefined =>
      Throw (TypeError "Cannot read properties of undefined (reading 'concat')")
  | JNull =>
      Throw (TypeError "Cannot read properties of null (reading 'concat')")
  | _ => Throw (TypeError "concat is not a function")
  end.

(** Running a callback that may throw over a list, left to right. *)
Fixpoint mapM {A B : Type} (f : A -> Result B) (l : list A)
  : Result (list B) :=
  match l with
  | [] => Ok []
  | x :: rest =>
      bind (f x) (fun y => bind (mapM f rest) (fun ys => Ok (y :: ys)))
  end.

(** [a.map(f)]: only an array has a [map] method. *)
Definition map_array (f : JsVal -> Result JsVal) (a : JsVal)
  : Result (list JsVal) :=
  match a with
  | JArr l => mapM f l
  | JUndefined =>
      Throw (TypeError "Cannot read properties of undefined (reading 'map')")
  | JNull =>
      Throw (TypeError "Cannot read properties of null (reading 'map')")
  | _ => Throw (TypeError "map is not a function")
  end.

(** What [JSON.parse(JSON.stringify(v))] gives back, which is what the
    receiver of a JSON body sees: a member whose value is [undefined] or a
    function is left out; [NaN], an infinity and such an array element become
    [null]. *)
Fixpoint jsonify (v : JsVal) : JsVal :=
  match v with
  | JUndefined | JFunction _ => JUndefined
  | JNum NaN | JNum (Infinity _) => JNull
  | JArr items =>
      JArr (map (fun x => match x with
                          | JUndefined | JFunction _ => JNull
                          | _ => jsonify x
                          end) items)
  | JObj members =>
      JObj ((fix members_of (l : list (string * JsVal)) :=
               match l with
               | [] => []
               | (k, x) :: rest =>
                   match x with
                   | JUndefined | JFunction _ => members_of rest
                   | _ => (k, jsonify x) :: members_of rest
                   end
               end) members)
  | _ => v
  end.

(** The member names of an object, in order. *)
Definition keys (v : JsVal) : list string :=
  match v with
  | JObj members => map fst members
  | _ => []
  end.

(** A line written by [console.log]. *)
Inductive LogEntry : Type :=
| LogJson (v : JsVal)              (* a JSON text, as the value it denotes *)
| LogError (label : string) (err : Error).

(** *** [parseInt(s, 10)]

    A string is read as the UTF-8 text of the JavaScript string. *)

(** White space of one byte: tab, line feed, vertical tab, form feed,
    carriage return, space. *)
Definition is_space (c : ascii) : bool :=
  let n := nat_of_ascii c in
  (Nat.eqb n 9 || Nat.eqb n 10 || Nat.eqb n 11 || Nat.eqb n 12
   || Nat.eqb n 13 || Nat.eqb n 32)%bool.

(** [c1 c2] is U+00A0 (no-break space). *)
Definition is_space2 (c1 c2 : ascii) : bool :=
  (Nat.eqb (nat_of_ascii c1) 194 && Nat.eqb (nat_of_ascii c2) 160)%bool.

(** [c1 c2 c3] is one of the white space of three bytes: U+1680, U+2000 to
    U+200A, U+2028, U+2029, U+202F, U+205F, U+3000 and U+FEFF. *)
Definition is_space3 (c1 c2 c3 : ascii) : bool :=
  let a := nat_of_ascii c1 in
  let b := nat_of_ascii c2 in
  let c := nat_of_ascii c3 in
  ((Nat.eqb a 225 && Nat.eqb b 154 && Nat.eqb c 128)
   || (Nat.eqb a 226 && Nat.eqb b 128
       && ((128 <=? c) && (c <=? 138) || Nat.eqb c 168 || Nat.eqb c 169
           || Nat.eqb c 175))
   || (Nat.eqb a 226 && Nat.eqb b 129 && Nat.eqb c 159)
   || (Nat.eqb a 227 && Nat.eqb b 128 && Nat.eqb c 128)
   || (Nat.eqb a 239 && Nat.eqb b 187 && Nat.eqb c 191))%bool%nat.

(** [s] without the white space and line terminators it starts with. *)
Fixpoint trim_start (s : string) : string :=
  match s with
  | String c rest =>
      if is_space c then trim_start rest
      else
        match rest with
        | String c2 rest2 =>
            if is_space2 c c2 then trim_start rest2
            else
              match rest2 with
              | String c3 rest3 =>
                  if is_space3 c c2 c3 then trim_start rest3 else s
              | EmptyString => s
              end
        | EmptyString => s
        end
  | EmptyString => s
  end.

(** The value of a decimal digit, if [c] is one. *)
Definition digit_value (c : ascii) : option Z :=
  let n := nat_of_ascii c in
  if ((48 <=? n) && (n <=? 57))%nat then Some (Z.of_nat (n - 48)) else None.

(** The value of the longest prefix of digits of [s], after the digits whose
    value is [acc]; [seen] says whether a digit was read. *)
Fixpoint leading_digits (s : string) (acc : Z) (seen : bool) : option Z :=
  match s with
  | String c rest =>
      match digit_value c with
      | Some d => leading_digits rest (10 * acc + d) true
      | None => if seen then Some acc else None
      end
  | EmptyString => if seen then Some acc else None
  end.

(** The number nearest to the integer [n], ties to the even significand of
    53 bits: [n] itself up to 2^53, an infinity from 2^1024. *)
Definition nearest_number (n : Z) : Num :=
  let m := Z.abs n in
  if m <=? 2 ^ 53 then Int n
  else
    let e := Z.log2 m - 52 in
    let q := m / 2 ^ e in
    let r := m mod 2 ^ e in
    let half := 2 ^ (e - 1) in
    let q' := if (half <? r) || ((r =? half)%Z && Z.odd q) then q + 1
              else q in
    if 2 ^ 1024 <=? q' * 2 ^ e then Infinity (n <? 0)
    else Int (Z.sgn n * (q' * 2 ^ e)).

(** [parseInt(s, 10)]: leading white space, an optional sign, then as many
    digits as there are; [NaN] when there is none; the number nearest to the
    integer the digits write. *)
Definition parseInt10 (s : string) : Num :=
  let s1 := trim_start s in
  let '(sign, s2) :=
    match s1 with
    | String "-"%char rest => (-1, rest)
    | String "+"%char rest => (1, rest)
    | _ => (1, s1)
    end in
  match leading_digits s2 0 false with
  | Some n => nearest_number (sign * n)
  | None => NaN
  end.

(** *** Numerals, in the words of the language definition *)

(** The character of the decimal digit [d]. *)
Definition digit_char (d : Z) : ascii := ascii_of_nat (48 + Z.to_nat d).

(** The text of a list of decimal digits, the most significant first. *)
Fixpoint digits_text (ds : list Z) : string :=
  match ds with
  | [] => ""
  | d :: rest => String (digit_char d) (digits_text rest)
  end.

(** The integer a list of decimal digits writes. *)
Definition digits_value (ds : list Z) : Z :=
  fold_left (fun acc d => 10 * acc + d) ds 0.

(** The white space and line terminators of the language, in UTF-8. *)
Definition white_space : list string :=
  map (fun bytes => string_of_list_ascii (map ascii_of_nat bytes))
    [[9]; [10]; [11]; [12]; [13]; [32]; [194; 160]; [225; 154; 128];
     [226; 128; 128]; [226; 128; 129]; [226; 128; 130]; [226; 128; 131];
     [226; 128; 132]; [226; 128; 133]; [226; 128; 134]; [226; 128; 135];
     [226; 128; 136]; [226; 128; 137]; [226; 128; 138]; [226; 128; 168];
     [226; 128; 169]; [226; 128; 175]; [226; 129; 159]; [227; 128; 128];
     [239; 187; 191]]%nat.

(** [s] does not go on with a digit. *)
Definition no_digit_ahead (s : string) : Prop :=
  match s with
  | String c _ => digit_value c = None
  | EmptyString => True
  end.

(** A safe integer: one that a number holds exactly, as do its neighbours. *)
Definition safe_integer (z : Z) : Prop := Z.abs z <= 2 ^ 53 - 1.

(** After the sign [sign], [s] does not go on with an integer: it does not
    start with a digit, nor, when there was no sign, with white space or a
    sign. *)
Definition no_integer_ahead (sign s : string) : Prop :=
  match s with
  | String c _ =>
      digit_value c = None
      /\ (sign = "" ->
          (nat_of_ascii c < 128)%nat /\ is_space c = false
          /\ c <> "+"%char /\ c <> "-"%char)
  | EmptyString => True
  end.

(** [a] before [b]. *)
Definition before (a b : string) : string := (a ++ b)%string.

(** What the language definition says [parseInt(s, 10)] is, for the strings
    that write a safe integer or no integer: [s] is white space, then a sign
    or none, then either digits that anything but a digit follows, and the
    result is the integer they write, negated after a minus sign, or no
    digit at all, and the result is [NaN]. *)
Inductive integer_text : string -> Num -> Prop :=
| text_of_integer (ws : list string) (sign : string) (ds : list Z)
    (rest : string) :
    Forall (fun w => In w white_space) ws ->
    In sign [""; "+"; "-"] ->
    ds <> [] ->
    Forall (fun d => 0 <= d <= 9) ds ->
    no_digit_ahead rest ->
    safe_integer (digits_value ds) ->
    integer_text
      (fold_right before (before sign (before (digits_text ds) rest)) ws)
      (Int (if String.eqb sign "-" then - digits_value ds
            else digits_value ds))
| text_of_no_integer (ws : list string) (sign rest : string) :
    Forall (fun w => In w white_space) ws ->
    In sign [""; "+"; "-"] ->
    no_integer_ahead sign rest ->
    integer_text (fold_right before (before sign rest) ws) NaN.

End JS.

Declare Scope js_scope.
Delimit Scope js_scope with js.
Notation "x <- m ;; k" := (JS.bind m (fun x => k))
  (at level 61, m at next level, right associativity) : js_scope.
Open Scope js_scope.

(* ================================================================== *)
(** ** The [Date] built-in, as far as [getUTC*] needs it *)
(* ================================================================== *)

Module Date.

Import JS.

(** A [Date] object holds a time value: [NaN] (an invalid date) or the
    milliseconds since 1970-01-01T00:00:00Z. *)
Inductive Date : Type :=
| Invalid
| Time (t : Z).

Definition msPerSecond : Z := 1000.
Definition msPerMinute : Z := 60000.
Definition msPerHour : Z := 3600000.
Definition msPerDay : Z := 86400000.

(** The largest absolute time value a [Date] can hold. *)
Definition maxTime : Z := 8640000000000000.

Definition Day (t : Z) : Z := t / msPerDay.

Definition DaysInYear (y : Z) : Z :=
  if negb (Z.eqb (y mod 4) 0) then 365
  else if negb (Z.eqb (y mod 100) 0) then 366
  else if negb (Z.eqb (y mod 400) 0) then 365
  else 366.

Definition DayFromYear (y : Z) : Z :=
  365 * (y - 1970) + (y - 1969) / 4 - (y - 1901) / 100 + (y - 1601) / 400.

Definition InLeapYear_of_year (y : Z) : Z :=
  if Z.eqb (DaysInYear y) 366 then 1 else 0.

(** The year holding day number [d]: the largest [y] with
    [DayFromYear y <= d]. The estimate from the mean year length is off by
    at most one. *)
Definition YearFromDay (d : Z) : Z :=
  let y := 1970 + (400 * d) / 146097 in
  if d <? DayFromYear y then y - 1
  else if DayFromYear (y + 1) <=? d then y + 1
  else y.

Definition YearFromTime (t : Z) : Z := YearFromDay (Day t).

Definition InLeapYear (t : Z) : Z := InLeapYear_of_year (YearFromTime t).

Definition DayWithinYear (t : Z) : Z :=
  Day t - DayFromYear (YearFromTime t).

(** The month holding day [dwy] of a year, [leap] being 1 in a leap year. *)
Definition month_of_day (dwy leap : Z) : Z :=
  if dwy <? 31 then 0
  else if dwy <? 59 + leap then 1
  else if dwy <? 90 + leap then 2
  else if dwy <? 120 + leap then 3
  else if dwy <? 151 + leap then 4
  else if dwy <? 181 + leap then 5
  else if dwy <? 212 + leap then 6
  else if dwy <? 243 + leap then 7
  else if dwy <? 273 + leap then 8
  else if dwy <? 304 + leap then 9
  else if dwy <? 334 + leap then 10
  else 11.

(** The day of the month of day [dwy] of a year, in month [m]. *)
Definition date_of_day (dwy leap m : Z) : Z :=
  match m with
  | 0 => dwy + 1
  | 1 => dwy - 30
  | 2 => dwy - 58 - leap
  | 3 => dwy - 89 - leap
  | 4 => dwy - 119 - leap
  | 5 => dwy - 150 - leap
  | 6 => dwy - 180 - leap
  | 7 => dwy - 211 - leap
  | 8 => dwy - 242 - leap
  | 9 => dwy - 272 - leap
  | 10 => dwy - 303 - leap
  | _ => dwy - 333 - leap
  end.

Definition MonthFromTime (t : Z) : Z :=
  month_of_day (DayWithinYear t) (InLeapYear t).

Definition DateFromTime (t : Z) : Z :=
  date_of_day (DayWithinYear t) (InLeapYear t) (MonthFromTime t).

Definition HourFromTime (t : Z) : Z := (t / msPerHour) mod 24.
Definition MinFromTime (t : Z) : Z := (t / msPerMinute) mod 60.
Definition SecFromTime (t : Z) : Z := (t / msPerSecond) mod 60.

(** A getter answers [NaN] on an invalid date. *)
Definition getter (f : Z -> Z) (d : Date) : Num :=
  match d with
  | Invalid => NaN
  | Time t => Int (f t)
  end.

Definition getUTCFullYear : Date -> Num := getter YearFromTime.
Definition getUTCMonth : Date -> Num := getter MonthFromTime.
Definition getUTCDate : Date -> Num := getter DateFromTime.
Definition getUTCHours : Date -> Num := getter HourFromTime.
Definition getUTCMinutes : Date -> Num := getter MinFromTime.
Definition getUTCSeconds : Date -> Num := getter SecFromTime.

(** [Date.UTC(y, m, d, h, min, s)] for in-range fields ([m] from 0). *)
Definition days_before_month (m leap : Z) : Z :=
  match m with
  | 0 => 0
  | 1 => 31
  | 2 => 59 + leap
  | 3 => 90 + leap
  | 4 => 120 + leap
  | 5 => 151 + leap
  | 6 => 181 + leap
  | 7 => 212 + leap
  | 8 => 243 + leap
  | 9 => 273 + leap
  | 10 => 304 + leap
  | _ => 334 + leap
  end.

Definition UTC (y m d h mi s : Z) : Z :=
  (DayFromYear y + days_before_month m (InLeapYear_of_year y) + (d - 1))
    * msPerDay
  + h * msPerHour + mi * msPerMinute + s * msPerSecond.

End Date.

(* ================================================================== *)
(** ** HTTP and the session *)
(* ================================================================== *)

Module Http.

Import JS.

(** The argument of [fetch]: the URL and the init object. [body] is the JSON
    text of the request, kept as the value it denotes. *)
Record Request : Type := {
  url : string;
  method : string;
  headers : list (string * string);
  body : option JsVal
}.

(** What the handlers read of a [Response]; [json] is what [res.json()]
    settles to. *)
Record Response : Type := {
  status : Z;
  statusText : string;
  json : Result JsVal
}.

(** [res.ok]: the status is in the range 200 to 299. *)
Definition ok (res : Response) : bool :=
  (200 <=? status res) && (status res <=? 299).

(** The network: how the promise of [fetch(request)] settles. A rejection is
    a failure to reach the server. *)
Definition Fetch : Type := Request -> Result Response.

(** The value of header [name], if the request carries it. *)
Definition header (name : string) (req : Request) : option string :=
  lookup name (headers req).

(** A server that answers every request with one response. *)
Definition answers (status : Z) (statusText : string) (json : Result JsVal)
  : Fetch :=
  fun _ => Ok {| status := status; statusText := statusText; json := json |}.

(** Member [k] of the JSON body of a request; [undefined] without a body. *)
Definition body_member (k : string) (req : Request) : JsVal :=
  match body req with
  | Some (JObj members) =>
      match lookup k members with Some v => v | None => JUndefined end
  | _ => JUndefined
  end.

(** The member names of the JSON body of a request. *)
Definition body_keys (req : Request) : list string :=
  match body req with
  | Some b => keys b
  | None => []
  end.

(** The signed-in user, as [useSession] gives it. *)
Record User : Type := {
  id : string;
  role : JsVal                     (* [publicMetadata.role] *)
}.

(** [session?.user]. *)
Definition Session : Type := option User.

(** [user?.id]. *)
Definition userToken (user : Session) : JsVal :=
  match user with
  | Some u => JStr (id u)
  | None => JUndefined
  end.

(** [user?.publicMetadata?.role]. *)
Definition userRole (user : Session) : JsVal :=
  match user with
  | Some u => role u
  | None => JUndefined
  end.

End Http.

(* ================================================================== *)
(** ** The role page ([RolePage], route [dashboard/roles/[roleid]])

    Source: [src/unnamed/part_003]. *)
(* ================================================================== *)

Module RolePage.

Import JS Http.

(** [PageData]. The fields copied from the response hold whatever the
    response held. *)
Record PageData : Type := {
  roleid : Num;
  roleName : JsVal;
  roleDescription : JsVal;
  skillsRequired : list JsVal;
  roleDepartment : JsVal;
  roleLocation : JsVal;
  roleListingDesc : JsVal
}.

(** The component's state and what it did to the outside. *)
Record State : Type := {
  data : option PageData;          (* [useState<PageData>()] *)
  console : list LogEntry;
  network : list Request
}.

Definition initial : State :=
  {| data := None; console := []; network := [] |}.

Definition setData (temp : PageData) (st : State) : State :=
  {| data := Some temp; console := console st; network := network st |}.

Definition console_log (entry : LogEntry) (st : State) : State :=
  {| data := data st; console := console st ++ [entry];
     network := network st |}.

Definition sent (req : Request) (st : State) : State :=
  {| data := data st; console := console st; network := network st ++ [req] |}.

(** The request of [fetchRoles]. *)
Definition request (user : Session) : Request :=
  {| url := "/api/role/role_listings_info";
     method := "GET";
     headers := [("user-token", ToString (or_else (userToken user) (JStr "")));
                 ("role", ToString (or_else (userRole user) (JStr "")))];
     body := None |}.

(** The first [then]. *)
Definition check_ok (res : Response) : Result JsVal :=
  if negb (ok res) then Throw (ErrorMsg "Network error") else json res.

(** The second [then], up to the call of [setData]. *)
Definition to_page_data (params_roleid : Num) (apiData : JsVal)
  : Result PageData :=
  roleListingData <- get apiData (String_of_Num params_roleid) ;;
  role_name <- get roleListingData "role_name" ;;
  role_desc <- get roleListingData "role_desc" ;;
  skills <- get roleListingData "skills" ;;
  skill_names <- map_array (fun skill => get skill "skill_name") skills ;;
  role_department <- get roleListingData "role_department" ;;
  role_location <- get roleListingData "role_location" ;;
  role_listing_desc <- get roleListingData "role_listing_desc" ;;
  Ok {| roleid := params_roleid;
        roleName := role_name;
        roleDescription := role_desc;
        skillsRequired := skill_names;
        roleDepartment := role_department;
        roleLocation := role_location;
        roleListingDesc := role_listing_desc |}.

(** The promise chain of [fetchRoles], before its [catch]. *)
Definition chain (fetch : Fetch) (user : Session) (params_roleid : Num)
  : Result PageData :=
  res <- fetch (request user) ;;
  apiData <- check_ok res ;;
  to_page_data params_roleid apiData.

(** [fetchRoles], run until its promise chain has settled. *)
Definition fetchRoles (fetch : Fetch) (user : Session) (params_roleid : Num)
  (st : State) : State :=
  let st1 := sent (request user) st in
  catch
    (temp <- chain fetch user params_roleid ;; Ok (setData temp st1))
    (fun err => console_log (LogError "Error fetching role details:" err) st1).

(** What the page renders. *)
Inductive View : Type :=
| Loading                                   (* [<div>Loading...</div>] *)
| RoleListingView (data : PageData).        (* [<RoleListing data={data} />] *)

Definition render (st : State) : View :=
  match data st with
  | None => Loading
  | Some d => RoleListingView d
  end.

(** A [role_listings_info] response with one listing, numbered 1. *)
Definition one_listing : JsVal :=
  JObj [("1",
         JObj [("role_name", JStr "Data Engineer");
               ("role_desc", JStr "Builds pipelines");
               ("skills",
                JArr [JObj [("skill_id", JNum (Int 1));
                            ("skill_name", JStr "SQL")]]);
               ("role_department", JStr "Engineering");
               ("role_location", JStr "Singapore");
               ("role_listing_desc", JStr "Open to internal staff")])].

End RolePage.

(* ================================================================== *)
(** ** The role detail view model ([RoleListing])

    Source: [src/unnamed/part_001], lines 1 to 85. *)
(* ================================================================== *)

Module RoleListing.

Import JS Http.

(** [SkillInfo]: the two lists of names shown by [SkillMatch]. *)
Record SkillInfo : Type := {
  skillObtained : list JsVal;
  skillMissing : list JsVal
}.

Record State : Type := {
  roleInfo : RolePage.PageData;    (* [useState(props.data)] *)
  skillInfo : option SkillInfo;    (* [useState<SkillInfo | undefined>()] *)
  console : list LogEntry;
  network : list Request
}.

Definition initial (props_data : RolePage.PageData) : State :=
  {| roleInfo := props_data; skillInfo := None; console := [];
     network := [] |}.

Definition setSkillInfo (temp : SkillInfo) (st : State) : State :=
  {| roleInfo := roleInfo st; skillInfo := Some temp; console := console st;
     network := network st |}.

Definition console_log (entry : LogEntry) (st : State) : State :=
  {| roleInfo := roleInfo st; skillInfo := skillInfo st;
     console := console st ++ [entry]; network := network st |}.

Definition sent (req : Request) (st : State) : State :=
  {| roleInfo := roleInfo st; skillInfo := skillInfo st;
     console := console st; network := network st ++ [req] |}.

(** The request of [fetchRoleSkillMatch]: the init object has a method and
    nothing else, its [headers] being commented out. *)
Definition request (staffId : Num) (roleid : Num) : Request :=
  {| url := "/api/staff/role-skills-match/" ++ String_of_Num staffId
            ++ "/" ++ String_of_Num roleid;
     method := "GET";
     headers := [];
     body := None |}.

(** The first [then]. *)
Definition check_ok (res : Response) : Result JsVal :=
  if negb (ok res) then Throw (ErrorMsg "Network error") else json res.

(** The second [then], up to the call of [setSkillInfo]. *)
Definition to_skill_info (apiData : JsVal) : Result SkillInfo :=
  match1 <- get apiData "match" ;;
  active <- get match1 "active" ;;
  match2 <- get apiData "match" ;;
  in_progress <- get match2 "in_progress" ;;
  obtained <- concat active in_progress ;;
  obtained_names <- map_array (fun skill => get skill "skill_name") obtained ;;
  match3 <- get apiData "match" ;;
  unverified <- get match3 "unverified" ;;
  missing_names <-
    map_array (fun skill => get skill "skill_name") unverified ;;
  Ok {| skillObtained := obtained_names; skillMissing := missing_names |}.

(** The promise chain of [fetchRoleSkillMatch], before its [catch]. *)
Definition chain (fetch : Fetch) (staffId : Num) (roleid : Num)
  : Result SkillInfo :=
  res <- fetch (request staffId roleid) ;;
  apiData <- check_ok res ;;
  to_skill_info apiData.

(** [fetchRoleSkillMatch], run until its promise chain has settled. *)
Definition fetchRoleSkillMatch (fetch : Fetch) (staffId : Num) (st : State)
  : State :=
  let req := request staffId (RolePage.roleid (roleInfo st)) in
  let st1 := sent req st in
  catch
    (temp <- chain fetch staffId (RolePage.roleid (roleInfo st)) ;;
     Ok (setSkillInfo temp st1))
    (fun err => console_log (LogError "Error fetching role details:" err) st1).

(** What the component renders under [QuickInfo]. *)
Inductive View : Type :=
| Loading                                   (* [<div>Loading...</div>] *)
| SkillMatchView (data : SkillInfo).        (* [<SkillMatch data={skillInfo} />] *)

Definition render (st : State) : View :=
  match skillInfo st with
  | None => Loading
  | Some info => SkillMatchView info
  end.

(** *** The response as the server documents it *)

(** Modelled from the spec: the declaration of [SkillMatchType] (in
    [@/types]) is not among the sources; section 6 gives the response of
    [/api/staff/role-skills-match] as [{match: {active, in_progress,
    unverified}}], each entry [{skill_id, skill_name}]. *)
Record Skill : Type := {
  skill_id : Z;
  skill_name : string
}.

Record SkillMatchType : Type := {
  active : list Skill;
  in_progress : list Skill;
  unverified : list Skill
}.

(** A value that reads as the skill [s]. *)
Definition is_skill (v : JsVal) (s : Skill) : Prop :=
  get v "skill_id" = Ok (JNum (Int (skill_id s)))
  /\ get v "skill_name" = Ok (JStr (skill_name s)).

(** A value that reads as the list of skills [l]. *)
Definition is_skills (v : JsVal) (l : list Skill) : Prop :=
  exists items, v = JArr items /\ Forall2 is_skill items l.

(** A response body that reads as [{match: m}]. *)
Definition is_response (apiData : JsVal) (m : SkillMatchType) : Prop :=
  exists mv a p u,
    get apiData "match" = Ok mv
    /\ get mv "active" = Ok a /\ is_skills a (active m)
    /\ get mv "in_progress" = Ok p /\ is_skills p (in_progress m)
    /\ get mv "unverified" = Ok u /\ is_skills u (unverified m).

(** The JSON of a skill, of a list of skills and of a response. *)
Definition json_of_skill (s : Skill) : JsVal :=
  JObj [("skill_id", JNum (Int (skill_id s)));
        ("skill_name", JStr (skill_name s))].

Definition json_of_skills (l : list Skill) : JsVal :=
  JArr (map json_of_skill l).

Definition json_of_response (m : SkillMatchType) : JsVal :=
  JObj [("match",
         JObj [("active", json_of_skills (active m));
               ("in_progress", json_of_skills (in_progress m));
               ("unverified", json_of_skills (unverified m))])].

(** The response of the scenario of section 8, for staff 7 and role 3. *)
Definition scenario_match : SkillMatchType :=
  {| active := [{| skill_id := 1; skill_name := "SQL" |}];
     in_progress := [];
     unverified := [{| skill_id := 2; skill_name := "Go" |}] |}.

Definition scenario_page : RolePage.PageData :=
  {| RolePage.roleid := Int 3;
     RolePage.roleName := JStr "Data Engineer";
     RolePage.roleDescription := JStr "Builds pipelines";
     RolePage.skillsRequired := [JStr "SQL"; JStr "Go"];
     RolePage.roleDepartment := JStr "Engineering";
     RolePage.roleLocation := JStr "Singapore";
     RolePage.roleListingDesc := JStr "Open to internal staff" |}.

(** The names of a list of skills, as the view holds them. *)
Definition names (l : list Skill) : list JsVal :=
  map (fun s => JStr (skill_name s)) l.

(** No name of [l1] is a name of [l2]. *)
Definition disjoint_names (l1 l2 : list Skill) : Prop :=
  forall s1 s2, In s1 l1 -> In s2 l2 -> skill_name s1 <> skill_name s2.

End RoleListing.

(* ================================================================== *)
(** ** The role listing as the server documents it *)
(* ================================================================== *)

Module Listing.

Import JS.

(** Modelled from the spec: the declaration of [SpecificRoleInfo] (in
    [@/types]) is not among the sources; section 6 gives an entry of the
    [role_listings_info] response as [{role_name, role_desc, skills,
    role_department, role_location, role_listing_desc}], the skills being
    [{skill_id, skill_name}] entries. *)
Record SpecificRoleInfo : Type := {
  role_name : string;
  role_desc : string;
  skills : list RoleListing.Skill;
  role_department : string;
  role_location : string;
  role_listing_desc : string
}.

(** A value that reads as the listing [info]. *)
Definition is_listing (v : JsVal) (info : SpecificRoleInfo) : Prop :=
  get v "role_name" = Ok (JStr (role_name info))
  /\ get v "role_desc" = Ok (JStr (role_desc info))
  /\ (exists sk, get v "skills" = Ok sk
                 /\ RoleListing.is_skills sk (skills info))
  /\ get v "role_department" = Ok (JStr (role_department info))
  /\ get v "role_location" = Ok (JStr (role_location info))
  /\ get v "role_listing_desc" = Ok (JStr (role_listing_desc info)).

(** The page data whose fields are those of [info], for route parameter
    [params_roleid]. *)
Definition page_of (params_roleid : Num) (info : SpecificRoleInfo)
  : RolePage.PageData :=
  {| RolePage.roleid := params_roleid;
     RolePage.roleName := JStr (role_name info);
     RolePage.roleDescription := JStr (role_desc info);
     RolePage.skillsRequired := RoleListing.names (skills info);
     RolePage.roleDepartment := JStr (role_department info);
     RolePage.roleLocation := JStr (role_location info);
     RolePage.roleListingDesc := JStr (role_listing_desc info) |}.

(** The listing of [RolePage.one_listing]. *)
Definition data_engineer : SpecificRoleInfo :=
  {| role_name := "Data Engineer";
     role_desc := "Builds pipelines";
     skills := [{| RoleListing.skill_id := 1;
                   RoleListing.skill_name := "SQL" |}];
     role_department := "Engineering";
     role_location := "Singapore";
     role_listing_desc := "Open to internal staff" |}.

End Listing.

(* ================================================================== *)
(** ** The create-role form ([RoleForm])

    Source: [src/components/create-role/RoleForm.tsx]. *)
(* ================================================================== *)

Module RoleForm.

Import JS Http.

(** An entry of a select: [{value, label}]. *)
Record SelectOption : Type := {
  value : string;
  label : string
}.

(** Modelled from the spec: the declarations of [SkillAPIResponse],
    [RoleSkillAPIResponse], [StaffIdAPIResponse] and [RoleFormValues] (in
    [@/types]) are not among the sources; section 6 gives a skill as
    [{skill_id, skill_name}], the role skills as [{role_skills: [...]}] and
    a manager as [{staff_id, fname, lname}]; the form values are the fields
    the form renders and [onSubmit] reads. *)
Record SkillAPIResponse : Type := {
  skill_id : Z;
  skill_name : string
}.

Record RoleSkillAPIResponse : Type := {
  role_skills : option (list SkillAPIResponse)
}.

Record StaffIdAPIResponse : Type := {
  staff_id : Z;
  fname : string;
  lname : string
}.

(** The values [form.handleSubmit] hands to [onSubmit] once the schema has
    accepted them. *)
Record RoleFormValues : Type := {
  roleName : string;
  listingId : Num;
  roleDescription : string;
  roleManager : string;
  location : string;
  departments : string;
  skills : list SelectOption;
  startDate : Date.Date
}.

(** The values the form holds while it is filled in
    ([Partial<RoleFormValues>]). *)
Record FormState : Type := {
  f_roleName : option string;
  f_listingId : option Num;
  f_roleDescription : option string;
  f_roleManager : option string;
  f_location : option string;
  f_departments : option string;
  f_skills : option (list SelectOption);
  f_startDate : option Date.Date
}.

Definition defaultValues : FormState :=
  {| f_roleName := Some ""; f_listingId := None;
     f_roleDescription := Some ""; f_roleManager := None;
     f_location := None; f_departments := None; f_skills := None;
     f_startDate := None |}.

(** [form.setValue("skills", v)]. *)
Definition setValue_skills (v : list SelectOption) (f : FormState)
  : FormState :=
  {| f_roleName := f_roleName f; f_listingId := f_listingId f;
     f_roleDescription := f_roleDescription f;
     f_roleManager := f_roleManager f; f_location := f_location f;
     f_departments := f_departments f; f_skills := Some v;
     f_startDate := f_startDate f |}.

(** The argument of [toast]; the action is the Dismiss button. *)
Record Toast : Type := {
  variant : option string;
  title : string;
  description : string;
  action_altText : string
}.

Record State : Type := {
  form : FormState;
  skillIdList : list SkillAPIResponse;
  managerDetails : list StaffIdAPIResponse;
  toasts : list Toast;
  console : list LogEntry;
  network : list Request
}.

Definition initial : State :=
  {| form := defaultValues; skillIdList := []; managerDetails := [];
     toasts := []; console := []; network := [] |}.

Definition setSkillId (l : list SkillAPIResponse) (st : State) : State :=
  {| form := form st; skillIdList := l; managerDetails := managerDetails st;
     toasts := toasts st; console := console st; network := network st |}.

Definition setManagerDetails (l : list StaffIdAPIResponse) (st : State)
  : State :=
  {| form := form st; skillIdList := skillIdList st; managerDetails := l;
     toasts := toasts st; console := console st; network := network st |}.

Definition form_setValue_skills (v : list SelectOption) (st : State) : State :=
  {| form := setValue_skills v (form st); skillIdList := skillIdList st;
     managerDetails := managerDetails st; toasts := toasts st;
     console := console st; network := network st |}.

Definition toast (t : Toast) (st : State) : State :=
  {| form := form st; skillIdList := skillIdList st;
     managerDetails := managerDetails st; toasts := toasts st ++ [t];
     console := console st; network := network st |}.

Definition console_log (entry : LogEntry) (st : State) : State :=
  {| form := form st; skillIdList := skillIdList st;
     managerDetails := managerDetails st; toasts := toasts st;
     console := console st ++ [entry]; network := network st |}.

Definition sent (req : Request) (st : State) : State :=
  {| form := form st; skillIdList := skillIdList st;
     managerDetails := managerDetails st; toasts := toasts st;
     console := console st; network := network st ++ [req] |}.

(** [String(n).padStart(2, "0")]. *)
Definition pad2 (n : Num) : string := padStart (String_of_Num n) 2 "0".

Definition formatDateToISOWithoutZ (date : Date.Date) : string :=
  (String_of_Num (Date.getUTCFullYear date) ++ "-"
   ++ pad2 (Num_add (Date.getUTCMonth date) (Int 1)) ++ "-"
   ++ pad2 (Date.getUTCDate date) ++ "T"
   ++ pad2 (Date.getUTCHours date) ++ ":"
   ++ pad2 (Date.getUTCMinutes date) ++ ":"
   ++ pad2 (Date.getUTCSeconds date))%string.

Section Component.

(** The network, [session?.user], the staff id of [AuthContext] and the
    module's [formattedDate] (the time the module was loaded, as text). *)
Variable fetch : Fetch.
Variable user : Session.
Variable staffId : Num.
Variable formattedDate : string.

Definition transformedData (data : RoleFormValues) : JsVal :=
  JObj [("role_listing_id", JNum (listingId data));
        ("role_id", JNum (parseInt10 (roleName data)));
        ("role_listing_desc", JStr (roleDescription data));
        ("role_listing_source", JNum (parseInt10 (roleManager data)));
        ("role_listing_open",
         JStr (formatDateToISOWithoutZ (startDate data)));
        ("role_listing_creator", JNum staffId);
        ("role_department", JStr (departments data));
        ("role_location", JStr (location data))].

(** The request of [onSubmit]. *)
Definition request (data : RoleFormValues) : Request :=
  {| url := "/api/role/role_listing";
     method := "POST";
     headers := [("Content-Type", "application/json");
                 ("role", ToString (userRole user))];
     body := Some (jsonify (transformedData data)) |}.

(** The first [then] of [onSubmit]. *)
Definition check_ok (res : Response) : Result JsVal :=
  if negb (ok res) then Throw (ErrorMsg (statusText res)) else json res.

Definition success_toast : Toast :=
  {| variant := None;
     title := "Role Successfully Created!";
     description := formattedDate;
     action_altText := "Dismiss" |}.

Definition error_toast (err : Error) : Toast :=
  {| variant := Some "destructive";
     title := "Error creating role!";
     description := message err;
     action_altText := "Dismiss" |}.

(** [onSubmit], run until its promise chain has settled. *)
Definition onSubmit (data : RoleFormValues) (st : State) : State :=
  let st1 := console_log (LogJson (jsonify (transformedData data))) st in
  let st2 := sent (request data) st1 in
  catch
    (res <- fetch (request data) ;;
     _ <- check_ok res ;;
     Ok (toast success_toast st2))
    (fun err => toast (error_toast err) st2).

End Component.

(** The effect on [managerData]. *)
Definition manager_effect (managerData : option (list StaffIdAPIResponse))
  (st : State) : State :=
  match managerData with
  | Some l => setManagerDetails l st
  | None => st
  end.

(** [ids.includes(x)]. *)
Definition includes (ids : list Z) (x : Z) : bool :=
  existsb (Z.eqb x) ids.

Definition filteredSkills (associatedSkillIds : list Z)
  (allSkills : list SkillAPIResponse) : list SkillAPIResponse :=
  filter (fun skill => includes associatedSkillIds (skill_id skill)) allSkills.

Definition option_of_skill (skill : SkillAPIResponse) : SelectOption :=
  {| value := String_of_Z (skill_id skill); label := skill_name skill |}.

(** The effect on [roleSkillsData] and [allSkills] that fills the skills
    select. *)
Definition skills_effect (roleSkillsData : option RoleSkillAPIResponse)
  (allSkills : option (list SkillAPIResponse)) (st : State) : State :=
  match roleSkillsData, allSkills with
  | Some rsd, Some all =>
      match option_map (map skill_id) (role_skills rsd) with
      | Some associatedSkillIds =>
          let filtered := filteredSkills associatedSkillIds all in
          form_setValue_skills (map option_of_skill filtered)
            (setSkillId filtered st)
      | None => st
      end
  | _, _ => st
  end.

(** The skill catalogue restricted to the identifiers of the role, in the
    words of the specification: [allSkills], in its order, keeping the
    entries whose identifier is one of the identifiers in [role_skills]. *)
Fixpoint restricted (role_skills : list SkillAPIResponse)
  (allSkills : list SkillAPIResponse) : list SkillAPIResponse :=
  match allSkills with
  | [] => []
  | skill :: rest =>
      if in_dec Z.eq_dec (skill_id skill) (map skill_id role_skills)
      then skill :: restricted role_skills rest
      else restricted role_skills rest
  end.

(** *** The items of the selects *)

(** Modelled from the spec: the declaration of [RoleFormProps] (in
    [@/types]) is not among the sources; of a role of its [roles] the form
    reads the identifier and the name. *)
Record Role : Type := {
  role_id : Z;
  role_name : string
}.

(** The items of the role select. *)
Definition role_items (roles : list Role) : list SelectOption :=
  map (fun role => {| value := String_of_Z (role_id role);
                      label := role_name role |}) roles.

(** [formattedManagerDetails]: the items of the manager select. *)
Definition formattedManagerDetails (st : State) : list SelectOption :=
  map (fun manager => {| label := fname manager ++ " " ++ lname manager;
                         value := String_of_Z (staff_id manager) |})
      (managerDetails st).

(** The options of the skills select. *)
Definition skill_options (st : State) : list SelectOption :=
  map (fun skill => {| value := String_of_Z (skill_id skill);
                       label := skill_name skill |})
      (skillIdList st).

(** *** The shape of the timestamp *)

Inductive CharClass : Type :=
| Digit
| Lit (c : ascii).

Definition is_digit (c : ascii) : bool :=
  let n := nat_of_ascii c in ((48 <=? n) && (n <=? 57))%nat.

Definition char_matches (cls : CharClass) (c : ascii) : bool :=
  match cls with
  | Digit => is_digit c
  | Lit l => Ascii.eqb l c
  end.

(** [s] has exactly the characters [pattern] asks for. *)
Fixpoint matches (pattern : list CharClass) (s : string) : bool :=
  match pattern, s with
  | [], EmptyString => true
  | cls :: pattern', String c s' => char_matches cls c && matches pattern' s'
  | _, _ => false
  end.

(** [YYYY-MM-DDTHH:mm:ss]. *)
Definition naive_iso : list CharClass :=
  [Digit; Digit; Digit; Digit; Lit "-"; Digit; Digit; Lit "-"; Digit; Digit;
   Lit "T"; Digit; Digit; Lit ":"; Digit; Digit; Lit ":"; Digit; Digit].

(** [-MM-DDTHH:mm:ss], what follows the year. *)
Definition after_year : list CharClass :=
  [Lit "-"; Digit; Digit; Lit "-"; Digit; Digit;
   Lit "T"; Digit; Digit; Lit ":"; Digit; Digit; Lit ":"; Digit; Digit].

(** The last character of a string. *)
Fixpoint last_char (s : string) : option ascii :=
  match s with
  | EmptyString => None
  | String c EmptyString => Some c
  | String _ rest => last_char rest
  end.

(** *** Form values to try the form on *)

(** The same values with other skills selected. *)
Definition with_skills (sk : list SelectOption) (data : RoleFormValues)
  : RoleFormValues :=
  {| roleName := roleName data; listingId := listingId data;
     roleDescription := roleDescription data;
     roleManager := roleManager data; location := location data;
     departments := departments data; skills := sk;
     startDate := startDate data |}.

(** A filled-in form starting at [start]. *)
Definition sample_values (start : Date.Date) : RoleFormValues :=
  {| roleName := "3"; listingId := Int 42;
     roleDescription := "Maintains the data platform";
     roleManager := "7"; location := "Singapore";
     departments := "Engineering";
     skills := [{| value := "1"; label := "SQL" |}];
     startDate := start |}.

(** A form whose role and manager were typed rather than picked. *)
Definition typed_values : RoleFormValues :=
  {| roleName := "  -042px"; listingId := Int 42;
     roleDescription := ""; roleManager := "manager 7";
     location := "Singapore"; departments := "Engineering";
     skills := []; startDate := Date.Time 0 |}.

(** [new Date(Date.UTC(999, 0, 1))], the first instant of the year 999. *)
Definition new_year_999 : Date.Date := Date.Time (Date.UTC 999 0 1 0 0 0).

(** [new Date(Date.UTC(2023, 10, 3, 8, 26, 40))]. *)
Definition autumn_2023 : Date.Date := Date.Time (Date.UTC 2023 10 3 8 26 40).

(** A signed-in manager. *)
Definition sample_user : Session :=
  Some {| id := "user_2X"; role := JStr "manager" |}.

End RoleForm.

(* ================================================================== *)
(** ** The data table toolbar ([DataTableToolbar])

    Source: [src/unnamed/part_001], lines 86 to 165. *)
(* ================================================================== *)

Module DataTableToolbar.

Import JS.

(** What the toolbar uses of a table of the table library: its columns, by
    identifier, the column filters of its state and its rows. A column
    answers [getFilterValue()] with the value of the filter of its
    identifier. *)
Record Column : Type := {
  id : string
}.

Record Table (TData : Type) : Type := {
  columns : list Column;
  columnFilters : list (string * JsVal);
  rows : list TData
}.
Arguments columns {TData} _.
Arguments columnFilters {TData} _.
Arguments rows {TData} _.

(** The names of the properties that every plain object inherits from
    [Object.prototype]; the value of each is truthy (a function, or for
    [__proto__] the prototype itself) and has no [getFilterValue]. *)
Definition inherited_names : list string :=
  ["constructor"; "__proto__"; "hasOwnProperty"; "isPrototypeOf";
   "propertyIsEnumerable"; "toLocaleString"; "toString"; "valueOf";
   "__defineGetter__"; "__defineSetter__"; "__lookupGetter__";
   "__lookupSetter__"].

Definition inherits (k : string) : bool :=
  existsb (String.eqb k) inherited_names.

(** What the table library answers when asked for a column. *)
Inductive Lookup : Type :=
| AColumn (c : Column)             (* a column of the table *)
| Inherited (name : string).       (* a property of [Object.prototype] *)

(** [table.getColumn(columnId)]. The library keeps the columns in a plain
    object, a member per identifier, and answers with its member
    [columnId]: the column of that identifier, else what a plain object
    inherits under that name, else [undefined]. This is the library on a
    table that has no column named [__proto__], whose assignment would
    replace the prototype of that object. *)
Definition getColumn {TData : Type} (table : Table TData) (columnId : string)
  : option Lookup :=
  match find (fun c => String.eqb (id c) columnId) (columns table) with
  | Some c => Some (AColumn c)
  | None => if inherits columnId then Some (Inherited columnId) else None
  end.

(** [column.getFilterValue()]. *)
Definition getFilterValue {TData : Type} (table : Table TData) (c : Column)
  : JsVal :=
  match lookup (id c) (columnFilters table) with
  | Some v => v
  | None => JUndefined
  end.

(** [table.resetColumnFilters()]. *)
Definition resetColumnFilters {TData : Type} (table : Table TData)
  : Table TData :=
  {| columns := columns table; columnFilters := []; rows := rows table |}.

(** Modelled from the spec: the declarations of [DataTableSearchableColumn]
    and [DataTableFilterableColumn] (in [@/types]) are not among the sources;
    section 4.4 speaks of a column identifier, which the toolbar compares
    with the identifiers of the table, strings; the other fields are those
    the toolbar reads. *)
Record DataTableSearchableColumn : Type := {
  s_id : string;
  s_title : string
}.

Record FilterOption : Type := {
  o_label : string;
  o_value : string
}.

Record DataTableFilterableColumn : Type := {
  f_id : string;
  f_title : string;
  f_options : list FilterOption
}.

(** [id ? String(id) : ""]: an empty identifier is falsy. *)
Definition id_or_empty (column_id : string) : string :=
  if negb (String.eqb column_id "") then column_id else "".

(** [v ?? ""]. *)
Definition nullish_or_empty (v : JsVal) : JsVal :=
  match v with
  | JUndefined | JNull => JStr ""
  | _ => v
  end.

(** The controls the toolbar can show. *)
Inductive Element (TData : Type) : Type :=
| Input (key placeholder : string) (value : JsVal)
| DataTableFacetedFilter (key : string) (column : option Lookup)
    (data : list TData) (nameColumn : option Lookup)
    (options : list FilterOption) (title : string)
| ResetButton.
Arguments Input {TData} key placeholder value.
Arguments DataTableFacetedFilter {TData} key column data nameColumn options
  title.
Arguments ResetButton {TData}.

Section Toolbar.

Context {TData : Type}.
Variable table : Table TData.

(** [table.getColumn(columnId)?.getFilterValue()]: nothing to call on
    [undefined]; a value that is no column has no such method. *)
Definition filter_value_of (columnId : string) : Result JsVal :=
  match getColumn table columnId with
  | Some (AColumn c) => Ok (getFilterValue table c)
  | Some (Inherited _) =>
      Throw (TypeError
               "table.getColumn(...)?.getFilterValue is not a function")
  | None => Ok JUndefined
  end.

(** The child a searchable column gives: [undefined] (nothing) when
    [getColumn] answers [undefined]. *)
Definition search_control (column : DataTableSearchableColumn)
  : Result (option (Element TData)) :=
  match getColumn table (id_or_empty (s_id column)) with
  | Some _ =>
      v <- filter_value_of (s_id column) ;;
      Ok (Some (Input (s_id column)
                  ("Filter " ++ s_title column ++ "...")
                  (nullish_or_empty v)))
  | None => Ok None
  end.

(** The child a filterable column gives. *)
Definition filter_control (column : DataTableFilterableColumn)
  : option (Element TData) :=
  match getColumn table (id_or_empty (f_id column)) with
  | Some _ =>
      Some (DataTableFacetedFilter (f_id column)
              (getColumn table (id_or_empty (f_id column)))
              (rows table)
              (getColumn table "roleName")
              (f_options column)
              (f_title column))
  | None => None
  end.

Definition isFiltered : bool :=
  (0 <? List.length (columnFilters table))%nat.

(** The children of the toolbar, in order; [None] is a child that shows
    nothing ([false] or [undefined]). Building a search input may throw. *)
Definition children (filterableColumns : list DataTableFilterableColumn)
  (searchableColumns : list DataTableSearchableColumn)
  : Result (list (option (Element TData))) :=
  search <- (if (0 <? List.length searchableColumns)%nat
             then mapM search_control searchableColumns
             else Ok [None]) ;;
  Ok (search
      ++ (if (0 <? List.length filterableColumns)%nat
          then map filter_control filterableColumns
          else [None])
      ++ [if isFiltered then Some ResetButton else None]).

(** What is shown: the children that are elements. *)
Fixpoint shown (l : list (option (Element TData))) : list (Element TData) :=
  match l with
  | [] => []
  | Some e :: rest => e :: shown rest
  | None :: rest => shown rest
  end.

(** The toolbar; an absent property is the empty list. Throwing is the
    render of the toolbar failing. *)
Definition DataTableToolbar
  (filterableColumns : option (list DataTableFilterableColumn))
  (searchableColumns : option (list DataTableSearchableColumn))
  : Result (list (Element TData)) :=
  l <- children
         (match filterableColumns with Some l => l | None => [] end)
         (match searchableColumns with Some l => l | None => [] end) ;;
  Ok (shown l).

End Toolbar.


(** The identifiers of the columns of a table. *)
Definition column_ids {TData : Type} (table : Table TData) : list string :=
  map id (columns table).

(** The table has a column of identifier [k]. *)
Definition has_column {TData : Type} (table : Table TData) (k : string)
  : bool :=
  existsb (String.eqb k) (column_ids table).

(** An identifier that is fit for the guard of the toolbar: it names a
    column of the table or nothing that an object inherits. *)
Definition plain_id {TData : Type} (table : Table TData) (k : string)
  : Prop :=
  In k inherited_names -> In k (column_ids table).

(** The search inputs of a toolbar that renders: one for each searchable
    column that the table has. *)
Definition inputs {TData : Type} (table : Table TData)
  (scs : list DataTableSearchableColumn) : list (Element TData) :=
  map (fun column =>
         Input (s_id column) ("Filter " ++ s_title column ++ "...")
           (nullish_or_empty
              (getFilterValue table {| id := s_id column |})))
    (filter (fun column => has_column table (s_id column)) scs).

(** The faceted filters of the toolbar: one for each filterable column for
    which the lookup answers. *)
Definition filters {TData : Type} (table : Table TData)
  (fcs : list DataTableFilterableColumn) : list (Element TData) :=
  map (fun column =>
         DataTableFacetedFilter (f_id column)
           (getColumn table (f_id column)) (rows table)
           (getColumn table "roleName") (f_options column)
           (f_title column))
    (filter (fun column =>
               has_column table (f_id column) || inherits (f_id column))
       fcs).


(** A table of two columns with a filter on the department, and a
    configuration that names a column the table does not have. *)
Definition sample_table : Table (string * string) :=
  {| columns := [{| id := "roleName" |}; {| id := "department" |}];
     columnFilters := [("department", JArr [JStr "Engineering"])];
     rows := [("Data Engineer", "Engineering"); ("Recruiter", "People")] |}.

Definition sample_searchable : list DataTableSearchableColumn :=
  [{| s_id := "roleName"; s_title := "Role" |};
   {| s_id := "skillRequired"; s_title := "Skill" |}].

Definition sample_filterable : list DataTableFilterableColumn :=
  [{| f_id := "location"; f_title := "Location"; f_options := [] |};
   {| f_id := "department"; f_title := "Department";
      f_options := [{| o_label := "Engineering"; o_value := "Engineering" |}] |}].

(** A configuration whose identifiers name what every object inherits. *)
Definition inherited_filterable : list DataTableFilterableColumn :=
  [{| f_id := "constructor"; f_title := "Constructor"; f_options := [] |}].

Definition inherited_searchable : list DataTableSearchableColumn :=
  [{| s_id := "toString"; s_title := "Text" |}].

End DataTableToolbar.

(* ================================================================== *)
(** ** The date range picker ([DatePickerWithRange])

    Source: [src/unnamed/part_002]. *)
(* ================================================================== *)

Module DatePickerWithRange.

(** [DateRange] of the calendar library. *)
Record DateRange : Type := {
  from : option Date.Date;
  to : option Date.Date
}.

(** A range object: the object it is (its address) and what it holds. *)
Record RangeObject : Type := {
  address : nat;
  range : DateRange
}.

(** [DateRange | undefined]. *)
Definition Value : Type := option RangeObject.

(** [Object.is(a, b)], with which React compares the dependencies of an
    effect: two objects are the same when they are one object. *)
Definition Object_is (a b : Value) : bool :=
  match a, b with
  | None, None => true
  | Some x, Some y => Nat.eqb (address x) (address y)
  | _, _ => false
  end.

(** A mounted picker: the [date] state, the [value] the effect last ran
    with, and the calls of [onChange]. *)
Record Instance : Type := {
  date : Value;
  deps : Value;
  notified : list Value
}.

Definition setDate (v : Value) (inst : Instance) : Instance :=
  {| date := v; deps := deps inst; notified := notified inst |}.

(** The body of the effect, with the [value] of the render it belongs to. *)
Definition effect (value : Value) (inst : Instance) : Instance :=
  setDate value inst.

(** The first render: [useState(value)], then the effect. *)
Definition mount (value : Value) : Instance :=
  effect value {| date := value; deps := value; notified := [] |}.

(** A later render with property [value]: the effect runs when [value] is
    not the one it last ran with. *)
Definition rerender (value : Value) (inst : Instance) : Instance :=
  if Object_is (deps inst) value then inst
  else effect value
         {| date := date inst; deps := value; notified := notified inst |}.

(** [handleDateChange]; [onChange] is [true] when the property is given. *)
Definition handleDateChange (onChange : bool) (selectedDateRange : Value)
  (inst : Instance) : Instance :=
  let inst1 := setDate selectedDateRange inst in
  if onChange
  then {| date := date inst1; deps := deps inst1;
          notified := notified inst1 ++ [selectedDateRange] |}
  else inst1.

(** What happens to a mounted picker. *)
Inductive Event : Type :=
| Rerender (value : Value)
| Select (onChange : bool) (selectedDateRange : Value).

Definition step (inst : Instance) (e : Event) : Instance :=
  match e with
  | Rerender value => rerender value inst
  | Select onChange sel => handleDateChange onChange sel inst
  end.

Definition run (inst : Instance) (events : list Event) : Instance :=
  fold_left step events inst.


(** [format(d, "LLL dd, y")]: the text of the day of a date, which stands
    here by its time value; the library throws on a date that is not
    valid. *)
Definition format (d : Date.Date) : JS.Result Z :=
  match d with
  | Date.Time t => JS.Ok t
  | Date.Invalid => JS.Throw (JS.RangeError "Invalid time value")
  end.

(** What the button shows: the placeholder, the text of one day, or the
    texts of two days about a dash. *)
Inductive Label : Type :=
| PickADate
| Single (from : Z)
| FromTo (from to : Z).

(** The content of the button in a render with state [d]; a throw is the
    render failing. A [Date] is an object, so it counts as given whether it
    is valid or not. *)
Definition label (d : Value) : JS.Result Label :=
  match d with
  | Some o =>
      match from (range o) with
      | Some f =>
          match to (range o) with
          | Some t =>
              JS.bind (format f) (fun a =>
              JS.bind (format t) (fun b => JS.Ok (FromTo a b)))
          | None => JS.bind (format f) (fun a => JS.Ok (Single a))
          end
      | None => JS.Ok PickADate
      end
  | None => JS.Ok PickADate
  end.

(** The selections of [events] that were reported to [onChange], in
    order. *)
Fixpoint reported (events : list Event) : list Value :=
  match events with
  | [] => []
  | Select true sel :: rest => sel :: reported rest
  | _ :: rest => reported rest
  end.

(** Two ranges, each an object of its own. *)
Definition first_week : RangeObject :=
  {| address := 1;
     range := {| from := Some (Date.Time (Date.UTC 2023 10 6 0 0 0));
                 to := Some (Date.Time (Date.UTC 2023 10 12 0 0 0)) |} |}.

Definition second_week : RangeObject :=
  {| address := 2;
     range := {| from := Some (Date.Time (Date.UTC 2023 10 13 0 0 0));
                 to := None |} |}.


End DatePickerWithRange.

(* ================================================================== *)
(** ** Checking a property on a range of integers *)
(* ================================================================== *)

Module Range.

(** [p] holds on the [n] integers from [start]. *)
Fixpoint forall_from (n : nat) (start : Z) (p : Z -> bool) : bool :=
  match n with
  | O => true
  | S k => p start && forall_from k (start + 1) p
  end.

End Range.

(* ################################################################## *)
(** * Properties *)
(* ################################################################## *)

(* ================================================================== *)
(** ** The calendar fields of a time value *)
(* ================================================================== *)

Module DateFacts.

Import JS Date.

Lemma DayFromYear_step (y : Z) :
  DayFromYear (y + 1) = DayFromYear y + DaysInYear y.
Proof.
  unfold DayFromYear, DaysInYear.
  destruct (Z.eqb_spec (y mod 4) 0), (Z.eqb_spec (y mod 100) 0),
    (Z.eqb_spec (y mod 400) 0); cbn [negb];
    Z.to_euclidean_division_equations; lia.
Qed.

(** The estimate of [YearFromDay] is within one year of the year. *)
Lemma estimate_close (d : Z) :
  let y := 1970 + (400 * d) / 146097 in
  DayFromYear (y - 1) <= d < DayFromYear (y + 2).
Proof.
  unfold DayFromYear. Z.to_euclidean_division_equations; lia.
Qed.

(** Day [d] lies in the year [YearFromDay d]. *)
Lemma YearFromDay_spec (d : Z) :
  DayFromYear (YearFromDay d) <= d < DayFromYear (YearFromDay d + 1).
Proof.
  pose proof (estimate_close d) as H. cbv zeta in H.
  unfold YearFromDay.
  set (y := 1970 + 400 * d / 146097) in *.
  destruct (d <? DayFromYear y) eqn:E1.
  - apply Z.ltb_lt in E1. replace (y - 1 + 1) with y by lia. lia.
  - apply Z.ltb_ge in E1.
    destruct (DayFromYear (y + 1) <=? d) eqn:E2.
    + apply Z.leb_le in E2. replace (y + 1 + 1) with (y + 2) by lia. lia.
    + apply Z.leb_gt in E2. lia.
Qed.

Lemma DaysInYear_cases (y : Z) : DaysInYear y = 365 \/ DaysInYear y = 366.
Proof.
  unfold DaysInYear.
  destruct (Z.eqb (y mod 4) 0), (Z.eqb (y mod 100) 0), (Z.eqb (y mod 400) 0);
    simpl; auto.
Qed.

Lemma DayFromYear_mono (a b : Z) : a <= b -> DayFromYear a <= DayFromYear b.
Proof.
  intros H. unfold DayFromYear. Z.to_euclidean_division_equations; lia.
Qed.

(** [YearFromDay d] is the largest year that starts on or before day [d],
    which is how the language defines the year of a time value. *)
Lemma YearFromDay_largest (d y : Z) :
  DayFromYear y <= d -> y <= YearFromDay d.
Proof.
  intros H. destruct (Z_le_gt_dec y (YearFromDay d)) as [Hle|Hgt]; [exact Hle|].
  pose proof (YearFromDay_spec d) as [_ Hs].
  pose proof (DayFromYear_mono (YearFromDay d + 1) y ltac:(lia)). lia.
Qed.

Lemma InLeapYear_range (t : Z) : 0 <= InLeapYear t <= 1.
Proof.
  unfold InLeapYear, InLeapYear_of_year.
  destruct (Z.eqb _ 366); lia.
Qed.

Lemma DayWithinYear_range (t : Z) :
  0 <= DayWithinYear t < 365 + InLeapYear t.
Proof.
  unfold DayWithinYear, InLeapYear, InLeapYear_of_year, YearFromTime.
  pose proof (YearFromDay_spec (Day t)) as [H1 H2].
  rewrite DayFromYear_step in H2.
  destruct (DaysInYear_cases (YearFromDay (Day t))) as [E|E]; rewrite E in *;
    simpl; lia.
Qed.

Lemma month_of_day_range (dwy leap : Z) : 0 <= month_of_day dwy leap <= 11.
Proof.
  unfold month_of_day.
  repeat match goal with
         | |- context [if ?c then _ else _] => destruct c
         end; lia.
Qed.

Lemma date_of_day_range (dwy leap : Z) :
  0 <= leap <= 1 -> 0 <= dwy < 365 + leap ->
  1 <= date_of_day dwy leap (month_of_day dwy leap) <= 31.
Proof.
  intros Hl Hd. unfold month_of_day.
  repeat match goal with
         | |- context [if ?a <? ?b then _ else _] =>
             destruct (Z.ltb_spec a b)
         end; simpl; lia.
Qed.

Lemma MonthFromTime_range (t : Z) : 0 <= MonthFromTime t <= 11.
Proof. apply month_of_day_range. Qed.

Lemma DateFromTime_range (t : Z) : 1 <= DateFromTime t <= 31.
Proof.
  apply date_of_day_range; [apply InLeapYear_range|apply DayWithinYear_range].
Qed.

Lemma HourFromTime_range (t : Z) : 0 <= HourFromTime t <= 23.
Proof.
  unfold HourFromTime. pose proof (Z.mod_pos_bound (t / msPerHour) 24). lia.
Qed.

Lemma MinFromTime_range (t : Z) : 0 <= MinFromTime t <= 59.
Proof.
  unfold MinFromTime. pose proof (Z.mod_pos_bound (t / msPerMinute) 60). lia.
Qed.

Lemma SecFromTime_range (t : Z) : 0 <= SecFromTime t <= 59.
Proof.
  unfold SecFromTime. pose proof (Z.mod_pos_bound (t / msPerSecond) 60). lia.
Qed.

(** The fields of a few known instants. *)
Example epoch_fields :
  (YearFromTime 0, MonthFromTime 0, DateFromTime 0) = (1970, 0, 1).
Proof. reflexivity. Qed.

Example leap_day_fields :
  let t := 951782400000 in
  (YearFromTime t, MonthFromTime t, DateFromTime t) = (2000, 1, 29).
Proof. reflexivity. Qed.

Example last_instant_fields :
  (YearFromTime maxTime, MonthFromTime maxTime, DateFromTime maxTime)
  = (275760, 8, 13).
Proof. reflexivity. Qed.

End DateFacts.

(* ================================================================== *)
(** ** Numerals *)
(* ================================================================== *)

Module NumeralFacts.

Import JS.

Lemma leading_digits_acc (d : Decimal.uint) :
  forall p : positive,
    leading_digits (NilEmpty.string_of_uint d) (Z.pos p) true
    = Some (Z.pos (Pos.of_uint_acc d p)).
Proof.
  induction d; intros p;
    cbn [NilEmpty.string_of_uint leading_digits Pos.of_uint_acc];
    try reflexivity;
    match goal with
    | |- context [digit_value ?c] =>
        let v := eval vm_compute in (digit_value c) in
        change (digit_value c) with v; cbv iota
    end;
    match goal with
    | |- leading_digits _ ?a true = _ =>
        match goal with
        | |- _ = Some (Z.pos (Pos.of_uint_acc _ ?q)) =>
            replace a with (Z.pos q) by lia
        end
    end; apply IHd.
Qed.

Lemma leading_digits_uint (d : Decimal.uint) (seen : bool) :
  d <> Decimal.Nil ->
  leading_digits (NilEmpty.string_of_uint d) 0 seen
  = Some (Z.of_N (Pos.of_uint d)).
Proof.
  revert seen. induction d; intros seen Hd; try contradiction;
    cbn [NilEmpty.string_of_uint leading_digits Pos.of_uint];
    match goal with
    | |- context [digit_value ?c] =>
        let v := eval vm_compute in (digit_value c) in
        change (digit_value c) with v; cbv iota
    end.
  - change (10 * 0 + Z.of_nat 0) with 0.
    destruct d; try (apply IHd; discriminate). reflexivity.
  - apply (leading_digits_acc d 1).
  - apply (leading_digits_acc d 2).
  - apply (leading_digits_acc d 3).
  - apply (leading_digits_acc d 4).
  - apply (leading_digits_acc d 5).
  - apply (leading_digits_acc d 6).
  - apply (leading_digits_acc d 7).
  - apply (leading_digits_acc d 8).
  - apply (leading_digits_acc d 9).
Qed.

(** A character of one byte that is no white space ends the white space. *)
Lemma trim_start_stops (c : ascii) (rest : string) :
  (nat_of_ascii c < 128)%nat -> is_space c = false ->
  trim_start (String c rest) = String c rest.
Proof.
  intros Hc Hs. cbn [trim_start]. rewrite Hs.
  assert (H2 : forall c2, is_space2 c c2 = false).
  { intros c2. unfold is_space2.
    destruct (Nat.eqb_spec (nat_of_ascii c) 194); [lia|reflexivity]. }
  assert (H3 : forall c2 c3, is_space3 c c2 c3 = false).
  { intros c2 c3. unfold is_space3. cbv zeta.
    destruct (Nat.eqb_spec (nat_of_ascii c) 225); [lia|].
    destruct (Nat.eqb_spec (nat_of_ascii c) 226); [lia|].
    destruct (Nat.eqb_spec (nat_of_ascii c) 227); [lia|].
    destruct (Nat.eqb_spec (nat_of_ascii c) 239); [lia|]. reflexivity. }
  destruct rest as [|c2 [|c3 rest3]]; try reflexivity;
    rewrite H2; try reflexivity. now rewrite H3.
Qed.

(** White space at the start is skipped. *)
Lemma trim_start_white_space (ws : list string) (s : string) :
  Forall (fun w => In w white_space) ws ->
  trim_start (fold_right before s ws) = trim_start s.
Proof.
  induction 1 as [|w ws Hw _ IH]; [reflexivity|].
  cbn [fold_right]. rewrite <- IH. unfold before at 1.
  generalize (fold_right before s ws). intros t.
  unfold white_space in Hw. cbn in Hw.
  repeat (destruct Hw as [<-|Hw]; [reflexivity|]). contradiction.
Qed.

Lemma digit_value_digit_char (d : Z) :
  0 <= d <= 9 ->
  digit_value (digit_char d) = Some d
  /\ (nat_of_ascii (digit_char d) < 128)%nat
  /\ is_space (digit_char d) = false
  /\ digit_char d <> "+"%char /\ digit_char d <> "-"%char.
Proof.
  intros H.
  assert (E : d = 0 \/ d = 1 \/ d = 2 \/ d = 3 \/ d = 4 \/ d = 5 \/ d = 6
              \/ d = 7 \/ d = 8 \/ d = 9) by lia.
  repeat (destruct E as [E|E]);
    subst d; repeat split;
    first [reflexivity | discriminate | vm_compute; lia].
Qed.

(** Reading digits gives the integer they write. *)
Lemma leading_digits_text (ds : list Z) (rest : string) :
  Forall (fun d => 0 <= d <= 9) ds ->
  no_digit_ahead rest ->
  forall acc seen,
    leading_digits (before (digits_text ds) rest) acc seen
    = if (match ds with [] => seen | _ => true end)
      then Some (fold_left (fun a d => 10 * a + d) ds acc)
      else None.
Proof.
  intros Hds Hrest. induction Hds as [|d ds Hd _ IH]; intros acc seen.
  - cbn. destruct rest as [|c rest]; [reflexivity|].
    cbn in Hrest. cbn [leading_digits]. now rewrite Hrest.
  - cbn [digits_text before append leading_digits].
    destruct (digit_value_digit_char d Hd) as [-> _].
    unfold before in IH. rewrite IH. cbn [fold_left].
    destruct ds; reflexivity.
Qed.

(** A safe integer is a number. *)
Lemma nearest_number_safe (z : Z) :
  safe_integer z -> nearest_number z = Int z.
Proof.
  unfold safe_integer, nearest_number. intros H. cbv zeta.
  destruct (Z.leb_spec (Z.abs z) (2 ^ 53)); [reflexivity|lia].
Qed.

(** After white space: a text that starts with neither sign. *)
Lemma parseInt10_unsigned (ws : list string) (c : ascii) (rest : string) :
  Forall (fun w => In w white_space) ws ->
  (nat_of_ascii c < 128)%nat -> is_space c = false ->
  c <> "+"%char -> c <> "-"%char ->
  parseInt10 (fold_right before (String c rest) ws)
  = match leading_digits (String c rest) 0 false with
    | Some n => nearest_number (1 * n)
    | None => NaN
    end.
Proof.
  intros Hws Hlt Hsp Hplus Hminus. unfold parseInt10.
  rewrite (trim_start_white_space _ _ Hws), (trim_start_stops _ _ Hlt Hsp).
  cbv zeta.
  destruct c as [[] [] [] [] [] [] [] []];
    first [reflexivity
          | exfalso; apply Hplus; reflexivity
          | exfalso; apply Hminus; reflexivity].
Qed.

(** After white space: a text that starts with a sign. *)
Lemma parseInt10_signed (ws : list string) (minus : bool) (rest : string) :
  Forall (fun w => In w white_space) ws ->
  parseInt10
    (fold_right before (String (if minus then "-" else "+")%char rest) ws)
  = match leading_digits rest 0 false with
    | Some n => nearest_number ((if minus then -1 else 1) * n)
    | None => NaN
    end.
Proof.
  intros Hws. unfold parseInt10. rewrite (trim_start_white_space _ _ Hws).
  destruct minus;
    (rewrite trim_start_stops by (cbn; try lia; reflexivity)); reflexivity.
Qed.

(** [parseInt10] computes what the language definition says. *)
Lemma parseInt10_integer_text (s : string) (n : Num) :
  integer_text s n -> parseInt10 s = n.
Proof.
  intros H. destruct H as [ws sign ds rest Hws Hsign Hne Hds Hrest Hsafe
                          |ws sign rest Hws Hsign Hrest].
  - destruct ds as [|d ds]; [contradiction|].
    pose proof (Forall_inv Hds) as Hd.
    destruct (digit_value_digit_char d Hd) as (Hv & Hlt & Hsp & Hplus & Hminus).
    pose proof (leading_digits_text (d :: ds) rest Hds Hrest 0 false) as Hl.
    cbv iota in Hl. fold (digits_value (d :: ds)) in Hl.
    destruct Hsign as [<-|[<-|[<-|[]]]].
    + change (before "" (before (digits_text (d :: ds)) rest))
        with (String (digit_char d) (before (digits_text ds) rest)) in *.
      rewrite (parseInt10_unsigned ws _ _ Hws Hlt Hsp Hplus Hminus).
      change (String (digit_char d) (before (digits_text ds) rest))
        with (before (digits_text (d :: ds)) rest).
      rewrite Hl, Z.mul_1_l. apply nearest_number_safe, Hsafe.
    + change (before "+" ?t) with (String "+"%char t).
      rewrite (parseInt10_signed ws false _ Hws).
      rewrite Hl, Z.mul_1_l. apply nearest_number_safe, Hsafe.
    + change (before "-" ?t) with (String "-"%char t).
      rewrite (parseInt10_signed ws true _ Hws). rewrite Hl.
      replace (-1 * digits_value (d :: ds)) with (- digits_value (d :: ds))
        by lia.
      apply (nearest_number_safe (- digits_value (d :: ds))).
      unfold safe_integer. rewrite Z.abs_opp. exact Hsafe.
  - destruct Hsign as [<-|[<-|[<-|[]]]].
    + change (before "" rest) with rest.
      destruct rest as [|c rest].
      * unfold parseInt10. now rewrite (trim_start_white_space _ _ Hws).
      * destruct Hrest as (Hv & Hc).
        destruct (Hc eq_refl) as (Hlt & Hsp & Hp & Hm).
        rewrite (parseInt10_unsigned ws _ _ Hws Hlt Hsp Hp Hm).
        cbn [leading_digits]. now rewrite Hv.
    + change (before "+" rest) with (String "+"%char rest).
      rewrite (parseInt10_signed ws false _ Hws).
      destruct rest as [|c rest]; [reflexivity|].
      destruct Hrest as (Hv & _). cbn [leading_digits]. now rewrite Hv.
    + change (before "-" rest) with (String "-"%char rest).
      rewrite (parseInt10_signed ws true _ Hws).
      destruct rest as [|c rest]; [reflexivity|].
      destruct Hrest as (Hv & _). cbn [leading_digits]. now rewrite Hv.
Qed.

(** A numeral starts with a digit: [parseInt] has no space to skip and no
    sign to read. *)
Lemma numeral_unsigned (d : Decimal.uint) :
  d <> Decimal.Nil ->
  parseInt10 (NilEmpty.string_of_uint d)
  = match leading_digits (NilEmpty.string_of_uint d) 0 false with
    | Some n => nearest_number (1 * n)
    | None => NaN
    end.
Proof.
  intros Hd. unfold parseInt10.
  destruct d; try contradiction; cbn [NilEmpty.string_of_uint];
    rewrite trim_start_stops by (cbn; try lia; reflexivity); reflexivity.
Qed.

Lemma numeral_negative (d : Decimal.uint) :
  parseInt10 (String "-" (NilEmpty.string_of_uint d))
  = match leading_digits (NilEmpty.string_of_uint d) 0 false with
    | Some n => nearest_number (-1 * n)
    | None => NaN
    end.
Proof.
  unfold parseInt10.
  rewrite trim_start_stops by (cbn; try lia; reflexivity). reflexivity.
Qed.

(** Parsing what [toString] printed gives a safe integer back: the role and
    the manager chosen in the form, whose values are identifiers printed by
    [toString], are sent as these identifiers. *)
Lemma parseInt10_String_of_Z (z : Z) :
  safe_integer z -> parseInt10 (String_of_Z z) = Int z.
Proof.
  intros Hsafe. unfold String_of_Z. destruct z as [|p|p]; [reflexivity| |].
  - cbn [Z.to_int NilEmpty.string_of_int].
    rewrite numeral_unsigned by apply DecimalPos.Unsigned.to_uint_nonnil.
    rewrite leading_digits_uint by apply DecimalPos.Unsigned.to_uint_nonnil.
    rewrite DecimalPos.Unsigned.of_to, Z.mul_1_l.
    apply nearest_number_safe, Hsafe.
  - cbn [Z.to_int NilEmpty.string_of_int].
    rewrite numeral_negative.
    rewrite leading_digits_uint by apply DecimalPos.Unsigned.to_uint_nonnil.
    rewrite DecimalPos.Unsigned.of_to.
    apply nearest_number_safe, Hsafe.
Qed.

(** Different integers print differently. *)
Lemma String_of_Z_injective (a b : Z) :
  String_of_Z a = String_of_Z b -> a = b.
Proof.
  unfold String_of_Z. intros E.
  apply DecimalZ.to_int_inj.
  pose proof (NilEmpty.isi (Z.to_int a)) as Ha.
  pose proof (NilEmpty.isi (Z.to_int b)) as Hb.
  rewrite E in Ha. rewrite Ha in Hb. now injection Hb.
Qed.

End NumeralFacts.

(* ================================================================== *)
(** ** The create-role form *)
(* ================================================================== *)

Module RoleFormFacts.

Import JS Http RoleForm Range.

Lemma forall_from_spec (n : nat) (p : Z -> bool) :
  forall start, forall_from n start p = true ->
  forall z, start <= z < start + Z.of_nat n -> p z = true.
Proof.
  induction n as [|k IH]; intros start H z Hz.
  - simpl in Hz. lia.
  - simpl in H. apply andb_prop in H. destruct H as [Hs Hr].
    destruct (Z.eq_dec z start) as [->|Hne]; [exact Hs|].
    apply (IH (start + 1) Hr). lia.
Qed.

Lemma matches_app (p1 p2 : list CharClass) :
  forall s1 s2,
    matches p1 s1 = true -> matches p2 s2 = true ->
    matches (p1 ++ p2) (s1 ++ s2)%string = true.
Proof.
  induction p1 as [|cls p1 IH]; intros s1 s2 H1 H2.
  - destruct s1; [exact H2|discriminate].
  - destruct s1 as [|c s1]; [discriminate|].
    simpl in *. apply andb_prop in H1. destruct H1 as [Hc H1].
    rewrite Hc. simpl. apply IH; assumption.
Qed.

(** A string that fits a pattern is as long as the pattern. *)
Lemma matches_length (p : list CharClass) :
  forall s, matches p s = true -> String.length s = List.length p.
Proof.
  induction p as [|cls p IH]; intros [|c s] H; simpl in *;
    try discriminate; try reflexivity.
  apply andb_prop in H. destruct H as [_ H]. f_equal. apply IH, H.
Qed.

(** Two digits for every number from 0 to 99. *)
Lemma pad2_two_digits (z : Z) :
  0 <= z <= 99 -> matches [Digit; Digit] (pad2 (Int z)) = true.
Proof.
  intros H.
  apply (forall_from_spec 100
           (fun z => matches [Digit; Digit] (pad2 (Int z))) 0).
  - vm_compute. reflexivity.
  - simpl. lia.
Qed.

(** Four digits for every year from 1000 to 9999. *)
Lemma year_four_digits (y : Z) :
  1000 <= y <= 9999 ->
  matches [Digit; Digit; Digit; Digit] (String_of_Z y) = true.
Proof.
  intros H.
  apply (forall_from_spec (Z.to_nat 9000)
           (fun y => matches [Digit; Digit; Digit; Digit] (String_of_Z y))
           1000).
  - vm_compute. reflexivity.
  - rewrite Z2Nat.id; lia.
Qed.

(** The timestamp of a valid date is the year as [String] prints it,
    followed by [-MM-DDTHH:mm:ss]: nothing comes after the seconds. *)
Lemma formatDateToISOWithoutZ_shape (t : Z) :
  exists rest,
    formatDateToISOWithoutZ (Date.Time t)
    = (String_of_Z (Date.YearFromTime t) ++ rest)%string
    /\ matches after_year rest = true.
Proof.
  unfold formatDateToISOWithoutZ. cbn [Date.getUTCFullYear Date.getUTCMonth
    Date.getUTCDate Date.getUTCHours Date.getUTCMinutes Date.getUTCSeconds
    Date.getter Num_add String_of_Num].
  eexists. split; [reflexivity|].
  pose proof (DateFacts.MonthFromTime_range t).
  pose proof (DateFacts.DateFromTime_range t).
  pose proof (DateFacts.HourFromTime_range t).
  pose proof (DateFacts.MinFromTime_range t).
  pose proof (DateFacts.SecFromTime_range t).
  apply (matches_app [Lit "-"] _ "-"); [reflexivity|].
  apply (matches_app [Digit; Digit]); [apply pad2_two_digits; lia|].
  apply (matches_app [Lit "-"] _ "-"); [reflexivity|].
  apply (matches_app [Digit; Digit]); [apply pad2_two_digits; lia|].
  apply (matches_app [Lit "T"] _ "T"); [reflexivity|].
  apply (matches_app [Digit; Digit]); [apply pad2_two_digits; lia|].
  apply (matches_app [Lit ":"] _ ":"); [reflexivity|].
  apply (matches_app [Digit; Digit]); [apply pad2_two_digits; lia|].
  apply (matches_app [Lit ":"] _ ":"); [reflexivity|].
  apply pad2_two_digits; lia.
Qed.

(** X1: for a start date whose year in UTC has four digits, the timestamp
    is [YYYY-MM-DDTHH:mm:ss]. *)
Lemma formatDateToISOWithoutZ_four_digit_year (t : Z) :
  1000 <= Date.YearFromTime t <= 9999 ->
  matches naive_iso (formatDateToISOWithoutZ (Date.Time t)) = true.
Proof.
  intros Hy. destruct (formatDateToISOWithoutZ_shape t) as [rest [-> Hrest]].
  change naive_iso with ([Digit; Digit; Digit; Digit] ++ after_year).
  apply matches_app; [apply year_four_digits; exact Hy|exact Hrest].
Qed.


Lemma last_char_app (a b : string) :
  b <> ""%string -> last_char (a ++ b) = last_char b.
Proof.
  intros Hb. induction a as [|c a IH]; [reflexivity|].
  simpl. rewrite IH.
  destruct (a ++ b)%string eqn:E; [|reflexivity].
  destruct a; simpl in E; [contradiction|discriminate].
Qed.

Lemma matches_last_digit (p : list CharClass) :
  forall s, matches (p ++ [Digit]) s = true ->
            exists c, last_char s = Some c /\ is_digit c = true.
Proof.
  induction p as [|cls p IH]; intros s H.
  - destruct s as [|c [|c' s]]; simpl in H; try discriminate.
    + exists c. split; [reflexivity|]. now rewrite andb_true_r in H.
    + rewrite andb_false_r in H. discriminate.
  - destruct s as [|c s]; [discriminate|].
    simpl in H. apply andb_prop in H. destruct H as [_ H].
    destruct (IH s H) as [d [Hd Hdig]]. exists d. split; [|exact Hdig].
    simpl. destruct s; [discriminate|exact Hd].
Qed.

Lemma last_char_app_r (a b : string) (c : ascii) :
  last_char b = Some c -> last_char (a ++ b) = Some c.
Proof.
  intros H. rewrite last_char_app; [exact H|].
  intros ->. discriminate.
Qed.

(** The last character of two padded digits is the digit of the units. *)
Lemma pad2_last_char (z : Z) :
  0 <= z <= 59 ->
  last_char (pad2 (Int z)) = Some (digit_char (z mod 10))
  /\ is_digit (digit_char (z mod 10)) = true
  /\ digit_char (z mod 10) <> "Z"%char.
Proof.
  intros H.
  pose proof (forall_from_spec 60
                (fun z =>
                   match last_char (pad2 (Int z)) with
                   | Some c => Ascii.eqb c (digit_char (z mod 10))
                               && is_digit c && negb (Ascii.eqb c "Z")
                   | None => false
                   end) 0) as Hall.
  specialize (Hall ltac:(vm_compute; reflexivity) z ltac:(simpl; lia)).
  cbv beta in Hall.
  destruct (last_char (pad2 (Int z))) as [c|]; [|discriminate].
  apply andb_prop in Hall. destruct Hall as [Hall Hz].
  apply andb_prop in Hall. destruct Hall as [Hc Hd].
  apply Ascii.eqb_eq in Hc. subst c. split; [reflexivity|].
  split; [exact Hd|]. intros E. rewrite E in Hz. discriminate.
Qed.

(** X2: the timestamp of a valid date ends with the digit of the units of
    its seconds in UTC, a digit and never [Z]. *)
Lemma formatDateToISOWithoutZ_no_Z (t : Z) :
  let units := digit_char (Date.SecFromTime t mod 10) in
  last_char (formatDateToISOWithoutZ (Date.Time t)) = Some units
  /\ is_digit units = true
  /\ units <> "Z"%char
  /\ last_char (formatDateToISOWithoutZ (Date.Time t)) <> Some "Z"%char.
Proof.
  cbv zeta.
  destruct (pad2_last_char (Date.SecFromTime t)
              ltac:(pose proof (DateFacts.SecFromTime_range t); lia))
    as [Hlast [Hdigit HZ]].
  assert (E : last_char (formatDateToISOWithoutZ (Date.Time t))
              = Some (digit_char (Date.SecFromTime t mod 10))).
  { unfold formatDateToISOWithoutZ.
    do 10 apply last_char_app_r. exact Hlast. }
  split; [exact E|]. split; [exact Hdigit|]. split; [exact HZ|].
  rewrite E. intros H. injection H as H. exact (HZ H).
Qed.

Example formatDateToISOWithoutZ_ends_with_seconds :
  formatDateToISOWithoutZ autumn_2023 = "2023-11-03T08:26:40"
  /\ last_char (formatDateToISOWithoutZ autumn_2023) = Some "0"%char
  /\ Date.SecFromTime (Date.UTC 2023 10 3 8 26 40) = 40.
Proof. repeat split. Qed.

Lemma formatDateToISOWithoutZ_four_digit_year_witness :
  1000 <= Date.YearFromTime (Date.UTC 2023 10 3 8 26 40) <= 9999
  /\ formatDateToISOWithoutZ autumn_2023 = "2023-11-03T08:26:40"
  /\ matches naive_iso (formatDateToISOWithoutZ autumn_2023) = true.
Proof.
  split; [vm_compute; split; discriminate|]. split; [reflexivity|].
  apply (formatDateToISOWithoutZ_four_digit_year (Date.UTC 2023 10 3 8 26 40)).
  vm_compute. split; discriminate.
Defined.

(** One submission sends one request, the create-role [POST]. *)
Lemma onSubmit_sends_once (fetch : Fetch) (user : Session) (staffId : Num)
  (formattedDate : string) (data : RoleFormValues) (st : State) :
  network (onSubmit fetch user staffId formattedDate data st)
  = network st ++ [request user staffId data]
  /\ method (request user staffId data) = "POST".
Proof.
  split; [|reflexivity].
  unfold onSubmit.
  destruct (fetch (request user staffId data)) as [res|e]; simpl;
    [destruct (check_ok res); simpl|]; reflexivity.
Qed.

(** C2, at the start date 0999-01-01T00:00:00Z: the year is printed with the
    three digits it has, so the [role_listing_open] of the request body is
    [999-01-01T00:00:00], which is not [YYYY-MM-DDTHH:mm:ss]; the months,
    days, hours, minutes and seconds are padded, the year is not. *)
Theorem role_listing_open_of_year_999 :
  Date.getUTCFullYear new_year_999 = Int 999
  /\ formatDateToISOWithoutZ new_year_999 = "999-01-01T00:00:00"
  /\ matches naive_iso (formatDateToISOWithoutZ new_year_999) = false
  /\ forall user staffId,
       body_member "role_listing_open"
         (request user staffId (sample_values new_year_999))
       = JStr "999-01-01T00:00:00".
Proof.
  repeat split.
Qed.


(** C4: when the create-role [POST] resolves with a status outside 200 to
    299, one destructive notification titled "Error creating role!" is
    shown, its description is the status text of the response, and the
    values held by the form are what they were. *)
Theorem onSubmit_failure_notifies (fetch : Fetch) (user : Session)
  (staffId : Num) (formattedDate : string) (data : RoleFormValues)
  (st : State) (res : Response) :
  fetch (request user staffId data) = Ok res ->
  ok res = false ->
  let st' := onSubmit fetch user staffId formattedDate data st in
  toasts st'
  = toasts st ++ [{| variant := Some "destructive";
                     title := "Error creating role!";
                     description := statusText res;
                     action_altText := "Dismiss" |}]
  /\ form st' = form st.
Proof.
  intros Hres Hok. unfold onSubmit. rewrite Hres. simpl.
  unfold check_ok. rewrite Hok. simpl. split; reflexivity.
Qed.

Lemma onSubmit_failure_notifies_witness :
  let fetch := answers 500 "Internal Server Error"
                 (Throw (SyntaxError "Unexpected end of JSON input")) in
  let res := {| status := 500; statusText := "Internal Server Error";
                json := Throw (SyntaxError "Unexpected end of JSON input") |} in
  let st' := onSubmit fetch sample_user (Int 7) "3 November 2023"
               (sample_values autumn_2023) initial in
  fetch (request sample_user (Int 7) (sample_values autumn_2023)) = Ok res
  /\ ok res = false
  /\ toasts st'
     = [{| variant := Some "destructive"; title := "Error creating role!";
           description := "Internal Server Error";
           action_altText := "Dismiss" |}]
  /\ form st' = form initial.
Proof.
  split; [reflexivity|]. split; [reflexivity|].
  exact (onSubmit_failure_notifies
           (answers 500 "Internal Server Error"
              (Throw (SyntaxError "Unexpected end of JSON input")))
           sample_user (Int 7) "3 November 2023"
           (sample_values autumn_2023) initial
           {| status := 500; statusText := "Internal Server Error";
              json := Throw (SyntaxError "Unexpected end of JSON input") |}
           eq_refl eq_refl).
Defined.

(** When the create-role [POST] resolves with a status from 200 to 299
    and a body that parses, the confirmation is shown and the form is not
    reset. *)
Lemma onSubmit_success_notifies (fetch : Fetch) (user : Session)
  (staffId : Num) (formattedDate : string) (data : RoleFormValues)
  (st : State) (res : Response) (created : JsVal) :
  fetch (request user staffId data) = Ok res ->
  ok res = true ->
  json res = Ok created ->
  let st' := onSubmit fetch user staffId formattedDate data st in
  toasts st'
  = toasts st ++ [{| variant := None;
                     title := "Role Successfully Created!";
                     description := formattedDate;
                     action_altText := "Dismiss" |}]
  /\ form st' = form st.
Proof.
  intros Hres Hok Hjson. unfold onSubmit. rewrite Hres. simpl.
  unfold check_ok. rewrite Hok, Hjson. simpl. split; reflexivity.
Qed.

Lemma onSubmit_success_notifies_witness :
  let fetch := answers 201 "Created" (Ok (JObj [])) in
  let res := {| status := 201; statusText := "Created";
                json := Ok (JObj []) |} in
  let st' := onSubmit fetch sample_user (Int 7) "3 November 2023"
               (sample_values autumn_2023) initial in
  fetch (request sample_user (Int 7) (sample_values autumn_2023)) = Ok res
  /\ ok res = true
  /\ json res = Ok (JObj [])
  /\ toasts st'
     = [{| variant := None; title := "Role Successfully Created!";
           description := "3 November 2023"; action_altText := "Dismiss" |}]
  /\ form st' = form initial.
Proof.
  split; [reflexivity|]. split; [reflexivity|]. split; [reflexivity|].
  exact (onSubmit_success_notifies
           (answers 201 "Created" (Ok (JObj [])))
           sample_user (Int 7) "3 November 2023"
           (sample_values autumn_2023) initial
           {| status := 201; statusText := "Created"; json := Ok (JObj []) |}
           (JObj []) eq_refl eq_refl eq_refl).
Defined.

(** A number as it reads in a JSON text. *)
Lemma jsonify_number (n : Num) :
  jsonify (JNum n)
  = match n with NaN | Infinity _ => JNull | Int _ => JNum n end.
Proof. destruct n; reflexivity. Qed.

(** The two identifiers of the body are the parses of the select values. *)
Lemma body_identifiers (user : Session) (staffId : Num)
  (data : RoleFormValues) :
  body_member "role_id" (request user staffId data)
  = jsonify (JNum (parseInt10 (roleName data)))
  /\ body_member "role_listing_source" (request user staffId data)
     = jsonify (JNum (parseInt10 (roleManager data))).
Proof.
  unfold body_member, request, transformedData. cbn [body].
  destruct (listingId data), (parseInt10 (roleName data)),
    (parseInt10 (roleManager data)), staffId; split; reflexivity.
Qed.

(** C9: the body of the create-role request has the eight members
    [role_listing_id], [role_id], [role_listing_desc], [role_listing_source],
    [role_listing_open], [role_listing_creator], [role_department] and
    [role_location] and no other; the skills selected in the form are not in
    it, whatever they are; [role_id] and [role_listing_source] are
    [parseInt(roleName, 10)] and [parseInt(roleManager, 10)], as JSON writes
    a number: when the form value is, after white space and a sign or none,
    digits that write a safe integer, the member is that integer, negated
    after a minus sign, whatever follows the digits; when it has no digit
    there, the member is [null]. *)
Theorem request_body_members (user : Session) (staffId : Num)
  (data : RoleFormValues) :
  let req := request user staffId data in
  let written (n : Num) : JsVal :=
    match n with
    | Int z => JNum (Int z)
    | NaN | Infinity _ => JNull
    end in
  body_keys req
  = ["role_listing_id"; "role_id"; "role_listing_desc";
     "role_listing_source"; "role_listing_open"; "role_listing_creator";
     "role_department"; "role_location"]
  /\ ~ In "skills" (body_keys req)
  /\ (forall sk, body (request user staffId (with_skills sk data)) = body req)
  /\ body_member "role_id" req = jsonify (JNum (parseInt10 (roleName data)))
  /\ body_member "role_listing_source" req
     = jsonify (JNum (parseInt10 (roleManager data)))
  /\ (forall n, integer_text (roleName data) n ->
                body_member "role_id" req = written n)
  /\ (forall n, integer_text (roleManager data) n ->
                body_member "role_listing_source" req = written n).
Proof.
  cbv zeta.
  assert (Hkeys : body_keys (request user staffId data)
                  = ["role_listing_id"; "role_id"; "role_listing_desc";
                     "role_listing_source"; "role_listing_open";
                     "role_listing_creator"; "role_department";
                     "role_location"]).
  { unfold body_keys, request, transformedData. cbn [body].
    destruct (listingId data), (parseInt10 (roleName data)),
      (parseInt10 (roleManager data)), staffId; reflexivity. }
  destruct (body_identifiers user staffId data) as [Hrole Hmanager].
  split; [exact Hkeys|]. split.
  - rewrite Hkeys. simpl. intuition discriminate.
  - split; [intros sk; reflexivity|].
    split; [exact Hrole|]. split; [exact Hmanager|]. split.
    + intros n Hn. rewrite Hrole.
      rewrite (NumeralFacts.parseInt10_integer_text _ _ Hn).
      destruct n; reflexivity.
    + intros n Hn. rewrite Hmanager.
      rewrite (NumeralFacts.parseInt10_integer_text _ _ Hn).
      destruct n; reflexivity.
Qed.

Lemma request_body_members_witness :
  let req := request sample_user (Int 7) typed_values in
  roleName typed_values = "  -042px"
  /\ roleManager typed_values = "manager 7"
  /\ integer_text (roleName typed_values) (Int (-42))
  /\ integer_text (roleManager typed_values) NaN
  /\ body_member "role_id" req = JNum (Int (-42))
  /\ body_member "role_listing_source" req = JNull.
Proof.
  assert (Hrole : integer_text (roleName typed_values) (Int (-42))).
  { apply (text_of_integer [" "; " "] "-" [0; 4; 2] "px").
    - repeat constructor; vm_compute; tauto.
    - right. right. left. reflexivity.
    - discriminate.
    - repeat constructor; lia.
    - reflexivity.
    - vm_compute. discriminate. }
  assert (Hmanager : integer_text (roleManager typed_values) NaN).
  { apply (text_of_no_integer [] "" "manager 7").
    - constructor.
    - left. reflexivity.
    - split; [reflexivity|]. intros _.
      repeat split; try discriminate. vm_compute. lia. }
  split; [reflexivity|]. split; [reflexivity|].
  split; [exact Hrole|]. split; [exact Hmanager|].
  destruct (request_body_members sample_user (Int 7) typed_values)
    as (_ & _ & _ & _ & _ & Hr & Hm).
  split; [exact (Hr _ Hrole)|exact (Hm _ Hmanager)].
Defined.

(** How [parseInt] reads some form values: a numeral beyond the safe
    integers is rounded to the nearest number, a no-break space is white
    space, letters alone are no number. *)
Example parseInt10_rounds :
  parseInt10 "9007199254740993" = Int 9007199254740992.
Proof. reflexivity. Qed.

Example parseInt10_skips_no_break_space :
  parseInt10 (String (ascii_of_nat 194) (String (ascii_of_nat 160) "12"))
  = Int 12.
Proof. reflexivity. Qed.

(** The text the language prints for 10^21 does not read back as 10^21. *)
Example parseInt10_of_exponent_text :
  parseInt10 "1e+21" = Int 1.
Proof. reflexivity. Qed.

Example parseInt10_of_letters : parseInt10 "abc" = NaN.
Proof. reflexivity. Qed.

(** [includes] decides membership. *)
Lemma includes_In (ids : list Z) (x : Z) : includes ids x = true <-> In x ids.
Proof.
  unfold includes. rewrite existsb_exists. split.
  - intros [y [Hy E]]. apply Z.eqb_eq in E. now subst.
  - intros H. exists x. split; [exact H|apply Z.eqb_refl].
Qed.

(** The list the effect computes is the catalogue restricted to the
    identifiers of the role. *)
Lemma filteredSkills_restricted (l all : list SkillAPIResponse) :
  filteredSkills (map skill_id l) all = restricted l all.
Proof.
  unfold filteredSkills. induction all as [|skill rest IH]; [reflexivity|].
  simpl. rewrite IH.
  destruct (in_dec Z.eq_dec (skill_id skill) (map skill_id l)) as [Hin|Hout].
  - apply includes_In in Hin. now rewrite Hin.
  - destruct (includes (map skill_id l) (skill_id skill)) eqn:E;
      [|reflexivity].
    apply includes_In in E. contradiction.
Qed.

(** What [restricted] keeps. *)
Lemma restricted_In (l all : list SkillAPIResponse) (skill : SkillAPIResponse) :
  In skill (restricted l all)
  <-> In skill all /\ In (skill_id skill) (map skill_id l).
Proof.
  induction all as [|x rest IH]; simpl; [tauto|].
  destruct (in_dec Z.eq_dec (skill_id x) (map skill_id l)) as [Hin|Hout];
    simpl; rewrite IH; intuition (subst; auto; contradiction).
Qed.

(** C7: running the effect that fills the skills select a second time on the
    same role skills and catalogue changes nothing; the list it stores is
    the catalogue, in its order, restricted to the identifiers of the role
    skills, and the value it gives the select is the [{value, label}] of
    each of these, the value being the identifier as a string. *)
Theorem skills_effect_idempotent
  (roleSkillsData : option RoleSkillAPIResponse)
  (allSkills : option (list SkillAPIResponse)) (st : State) :
  skills_effect roleSkillsData allSkills
    (skills_effect roleSkillsData allSkills st)
  = skills_effect roleSkillsData allSkills st
  /\ forall l all,
       let st' := skills_effect (Some {| role_skills := Some l |}) (Some all)
                    st in
       skillIdList st' = restricted l all
       /\ f_skills (form st')
          = Some (map (fun skill =>
                         {| value := String_of_Z (skill_id skill);
                            label := skill_name skill |})
                      (restricted l all)).
Proof.
  split.
  - unfold skills_effect.
    destruct roleSkillsData as [rsd|], allSkills as [all|]; try reflexivity.
    destruct (option_map (map skill_id) (role_skills rsd)); reflexivity.
  - intros l all. simpl. rewrite filteredSkills_restricted.
    split; reflexivity.
Qed.

End RoleFormFacts.

(* ================================================================== *)
(** ** The role detail view model and the role page *)
(* ================================================================== *)

Module RoleListingFacts.

Import JS Http RoleListing.

(** Reading the names of values that read as the skills [l]. *)
Lemma mapM_skill_names (items : list JsVal) (l : list Skill) :
  Forall2 is_skill items l ->
  mapM (fun skill => get skill "skill_name") items = Ok (names l).
Proof.
  induction 1 as [|v s items l [_ Hname] _ IH]; [reflexivity|].
  simpl. rewrite Hname. simpl. rewrite IH. reflexivity.
Qed.

(** The JSON of a response reads as that response. *)
Lemma json_of_skills_reads (l : list Skill) :
  is_skills (json_of_skills l) l.
Proof.
  exists (map json_of_skill l). split; [reflexivity|].
  induction l as [|s l IH]; constructor; [split; reflexivity|exact IH].
Qed.

Lemma json_of_response_reads (m : SkillMatchType) :
  is_response (json_of_response m) m.
Proof.
  exists (JObj [("active", json_of_skills (active m));
                ("in_progress", json_of_skills (in_progress m));
                ("unverified", json_of_skills (unverified m))]),
    (json_of_skills (active m)), (json_of_skills (in_progress m)),
    (json_of_skills (unverified m)).
  repeat split; try reflexivity; apply json_of_skills_reads.
Qed.

(** The second [then] on a response that reads as [{match: m}]. *)
Lemma to_skill_info_of_response (apiData : JsVal) (m : SkillMatchType) :
  is_response apiData m ->
  to_skill_info apiData
  = Ok {| skillObtained := names (active m ++ in_progress m);
          skillMissing := names (unverified m) |}.
Proof.
  intros (mv & a & p & u & Hm & Ha & (ia & -> & Fa) & Hp & (ip & -> & Fp)
          & Hu & (iu & -> & Fu)).
  unfold to_skill_info. rewrite Hm. cbn [bind]. rewrite Ha, Hp, Hu.
  cbn [bind concat map_array].
  rewrite (mapM_skill_names (ia ++ ip) (active m ++ in_progress m))
    by (apply Forall2_app; assumption).
  cbn [bind]. rewrite (mapM_skill_names iu (unverified m) Fu).
  reflexivity.
Qed.

Lemma In_names (l : list Skill) (n : JsVal) :
  In n (names l) <-> exists s, In s l /\ n = JStr (skill_name s).
Proof.
  unfold names. rewrite in_map_iff. split; intros [s [H1 H2]]; exists s; auto.
Qed.

(** C1: when the skill-match response reads as
    [{match: {active, in_progress, unverified}}], the view model stores as
    [skillObtained] the names of [active] followed by those of
    [in_progress], and as [skillMissing] the names of [unverified]; when the
    three lists share no name pairwise, no name is in both. *)
Theorem fetchRoleSkillMatch_projects (fetch : Fetch) (staffId : Num)
  (st : State) (res : Response) (apiData : JsVal) (m : SkillMatchType) :
  fetch (request staffId (RolePage.roleid (roleInfo st))) = Ok res ->
  ok res = true ->
  json res = Ok apiData ->
  is_response apiData m ->
  let st' := fetchRoleSkillMatch fetch staffId st in
  skillInfo st'
  = Some {| skillObtained :=
              map (fun s => JStr (skill_name s)) (active m ++ in_progress m);
            skillMissing :=
              map (fun s => JStr (skill_name s)) (unverified m) |}
  /\ (disjoint_names (active m) (in_progress m) ->
      disjoint_names (active m) (unverified m) ->
      disjoint_names (in_progress m) (unverified m) ->
      forall info n,
        skillInfo st' = Some info ->
        ~ (In n (skillObtained info) /\ In n (skillMissing info))).
Proof.
  intros Hfetch Hok Hjson Hresp. cbv zeta.
  assert (E : skillInfo (fetchRoleSkillMatch fetch staffId st)
              = Some {| skillObtained := names (active m ++ in_progress m);
                        skillMissing := names (unverified m) |}).
  { unfold fetchRoleSkillMatch, chain. rewrite Hfetch. cbn [bind].
    unfold check_ok. rewrite Hok, Hjson. cbn [negb bind].
    rewrite (to_skill_info_of_response apiData m Hresp). reflexivity. }
  split; [exact E|].
  intros _ Hau Hpu info n Hinfo [Hobt Hmiss].
  rewrite E in Hinfo. injection Hinfo as <-. cbn in Hobt, Hmiss.
  apply In_names in Hobt. apply In_names in Hmiss.
  destruct Hobt as [s1 [H1 E1]]. destruct Hmiss as [s2 [H2 E2]].
  rewrite E1 in E2. injection E2 as E2.
  apply in_app_or in H1. destruct H1 as [H1|H1].
  - exact (Hau s1 s2 H1 H2 E2).
  - exact (Hpu s1 s2 H1 H2 E2).
Qed.


Lemma fetchRoleSkillMatch_projects_witness :
  let fetch := answers 200 "OK" (Ok (json_of_response scenario_match)) in
  let st := initial scenario_page in
  let res := {| status := 200; statusText := "OK";
                json := Ok (json_of_response scenario_match) |} in
  let st' := fetchRoleSkillMatch fetch (Int 7) st in
  url (request (Int 7) (Int 3)) = "/api/staff/role-skills-match/7/3"
  /\ fetch (request (Int 7) (RolePage.roleid (roleInfo st))) = Ok res
  /\ ok res = true
  /\ json res = Ok (json_of_response scenario_match)
  /\ is_response (json_of_response scenario_match) scenario_match
  /\ skillInfo st'
     = Some {| skillObtained := [JStr "SQL"]; skillMissing := [JStr "Go"] |}
  /\ (disjoint_names (active scenario_match) (in_progress scenario_match) ->
      disjoint_names (active scenario_match) (unverified scenario_match) ->
      disjoint_names (in_progress scenario_match)
        (unverified scenario_match) ->
      forall info n,
        skillInfo st' = Some info ->
        ~ (In n (skillObtained info) /\ In n (skillMissing info))).
Proof.
  assert (R : is_response (json_of_response scenario_match) scenario_match).
  { exists (JObj [("active", json_of_skills (active scenario_match));
                  ("in_progress", json_of_skills (in_progress scenario_match));
                  ("unverified", json_of_skills (unverified scenario_match))]),
      (json_of_skills (active scenario_match)),
      (json_of_skills (in_progress scenario_match)),
      (json_of_skills (unverified scenario_match)).
    repeat split; try reflexivity;
      (eexists; split; [reflexivity|]; repeat constructor). }
  split; [reflexivity|]. split; [reflexivity|]. split; [reflexivity|].
  split; [reflexivity|]. split; [exact R|].
  exact (fetchRoleSkillMatch_projects
           (answers 200 "OK" (Ok (json_of_response scenario_match)))
           (Int 7) (initial scenario_page)
           {| status := 200; statusText := "OK";
              json := Ok (json_of_response scenario_match) |}
           (json_of_response scenario_match) scenario_match
           eq_refl eq_refl eq_refl R).
Defined.

End RoleListingFacts.

Module ReadSideFacts.

Import JS Http.

(** A response outside 200 to 299 makes either chain throw. *)
Lemma skill_match_chain_not_ok (fetch : Fetch) (staffId roleid : Num)
  (res : Response) :
  fetch (RoleListing.request staffId roleid) = Ok res -> ok res = false ->
  RoleListing.chain fetch staffId roleid = Throw (ErrorMsg "Network error").
Proof.
  intros Hres Hok. unfold RoleListing.chain, RoleListing.check_ok.
  rewrite Hres. cbn [bind]. rewrite Hok. reflexivity.
Qed.

Lemma roles_chain_not_ok (fetch : Fetch) (user : Session) (roleid : Num)
  (res : Response) :
  fetch (RolePage.request user) = Ok res -> ok res = false ->
  RolePage.chain fetch user roleid = Throw (ErrorMsg "Network error").
Proof.
  intros Hres Hok. unfold RolePage.chain, RolePage.check_ok.
  rewrite Hres. cbn [bind]. rewrite Hok. reflexivity.
Qed.

(** What [fetchRoleSkillMatch] does when its chain throws [e]. *)
Lemma fetchRoleSkillMatch_caught (fetch : Fetch) (staffId : Num)
  (st : RoleListing.State) (e : Error) :
  RoleListing.chain fetch staffId (RolePage.roleid (RoleListing.roleInfo st))
  = Throw e ->
  RoleListing.fetchRoleSkillMatch fetch staffId st
  = RoleListing.console_log (LogError "Error fetching role details:" e)
      (RoleListing.sent
         (RoleListing.request staffId
            (RolePage.roleid (RoleListing.roleInfo st))) st).
Proof.
  intros H. unfold RoleListing.fetchRoleSkillMatch. rewrite H. reflexivity.
Qed.

(** What [fetchRoles] does when its chain throws [e]. *)
Lemma fetchRoles_caught (fetch : Fetch) (user : Session) (roleid : Num)
  (st : RolePage.State) (e : Error) :
  RolePage.chain fetch user roleid = Throw e ->
  RolePage.fetchRoles fetch user roleid st
  = RolePage.console_log (LogError "Error fetching role details:" e)
      (RolePage.sent (RolePage.request user) st).
Proof.
  intros H. unfold RolePage.fetchRoles. rewrite H. reflexivity.
Qed.

(** C5: when a read-side fetch fails, by a status outside 200 to 299 or by
    anything thrown before the state is set, the error that was thrown is the
    one that is logged, and the state is what it was: a skill info (or page
    data) that was undefined is still undefined and the loading placeholder
    is still what is rendered. The error of a status outside 200 to 299 is
    [Error("Network error")]; the error of a fetch that was rejected is the
    reason of the rejection. The handler returns a state: nothing is thrown
    out of it. *)
Theorem read_fetch_failure_is_absorbed (fetch : Fetch) :
  (forall (staffId : Num) (st : RoleListing.State),
      let roleid := RolePage.roleid (RoleListing.roleInfo st) in
      (exists res, fetch (RoleListing.request staffId roleid) = Ok res
                   /\ ok res = false)
      \/ (exists e, RoleListing.chain fetch staffId roleid = Throw e) ->
      let st' := RoleListing.fetchRoleSkillMatch fetch staffId st in
      RoleListing.skillInfo st' = RoleListing.skillInfo st
      /\ RoleListing.roleInfo st' = RoleListing.roleInfo st
      /\ (exists e,
             RoleListing.chain fetch staffId roleid = Throw e
             /\ RoleListing.console st'
                = RoleListing.console st
                  ++ [LogError "Error fetching role details:" e]
             /\ (forall res,
                    fetch (RoleListing.request staffId roleid) = Ok res ->
                    ok res = false -> e = ErrorMsg "Network error")
             /\ (forall reason,
                    fetch (RoleListing.request staffId roleid) = Throw reason ->
                    e = reason))
      /\ (RoleListing.skillInfo st = None ->
          RoleListing.skillInfo st' = None
          /\ RoleListing.render st' = RoleListing.Loading))
  /\ (forall (user : Session) (roleid : Num) (st : RolePage.State),
         (exists res, fetch (RolePage.request user) = Ok res
                      /\ ok res = false)
         \/ (exists e, RolePage.chain fetch user roleid = Throw e) ->
         let st' := RolePage.fetchRoles fetch user roleid st in
         RolePage.data st' = RolePage.data st
         /\ (exists e,
                RolePage.chain fetch user roleid = Throw e
                /\ RolePage.console st'
                   = RolePage.console st
                     ++ [LogError "Error fetching role details:" e]
                /\ (forall res,
                       fetch (RolePage.request user) = Ok res ->
                       ok res = false -> e = ErrorMsg "Network error")
                /\ (forall reason,
                       fetch (RolePage.request user) = Throw reason ->
                       e = reason))
         /\ (RolePage.data st = None ->
             RolePage.data st' = None
             /\ RolePage.render st' = RolePage.Loading)).
Proof.
  split.
  - intros staffId st roleid Hfail.
    assert (He : exists e, RoleListing.chain fetch staffId roleid = Throw e).
    { destruct Hfail as [[res [Hres Hok]]|He]; [|exact He].
      eexists. apply (skill_match_chain_not_ok _ _ _ res); assumption. }
    destruct He as [e He]. cbv zeta.
    rewrite (fetchRoleSkillMatch_caught fetch staffId st e He).
    split; [reflexivity|]. split; [reflexivity|]. split.
    + exists e. split; [exact He|]. split; [reflexivity|]. split.
      * intros res Hres Hok.
        rewrite (skill_match_chain_not_ok _ _ _ res Hres Hok) in He.
        now injection He.
      * intros reason Hrej. unfold RoleListing.chain in He.
        fold roleid in Hrej. rewrite Hrej in He. now injection He.
    + intros Hnone. unfold RoleListing.render. cbn. rewrite Hnone. now split.
  - intros user roleid st Hfail.
    assert (He : exists e, RolePage.chain fetch user roleid = Throw e).
    { destruct Hfail as [[res [Hres Hok]]|He]; [|exact He].
      eexists. apply (roles_chain_not_ok _ _ _ res); assumption. }
    destruct He as [e He]. cbv zeta.
    rewrite (fetchRoles_caught fetch user roleid st e He).
    split; [reflexivity|]. split.
    + exists e. split; [exact He|]. split; [reflexivity|]. split.
      * intros res Hres Hok.
        rewrite (roles_chain_not_ok _ _ roleid res Hres Hok) in He.
        now injection He.
      * intros reason Hrej. unfold RolePage.chain in He.
        rewrite Hrej in He. now injection He.
    + intros Hnone. unfold RolePage.render. cbn. rewrite Hnone. now split.
Qed.

Lemma read_fetch_failure_is_absorbed_witness :
  let fetch := answers 503 "Service Unavailable"
                 (Throw (SyntaxError "Unexpected token")) in
  let st := RoleListing.initial RoleListing.scenario_page in
  let st' := RoleListing.fetchRoleSkillMatch fetch (Int 7) st in
  ((exists res, fetch (RoleListing.request (Int 7) (Int 3)) = Ok res
                /\ ok res = false)
   \/ (exists e, RoleListing.chain fetch (Int 7) (Int 3) = Throw e))
  /\ RoleListing.skillInfo st' = None
  /\ RoleListing.roleInfo st' = RoleListing.scenario_page
  /\ RoleListing.console st'
     = [LogError "Error fetching role details:" (ErrorMsg "Network error")]
  /\ RoleListing.render st' = RoleListing.Loading.
Proof.
  assert (F : (exists res,
                  answers 503 "Service Unavailable"
                    (Throw (SyntaxError "Unexpected token"))
                    (RoleListing.request (Int 7) (Int 3)) = Ok res
                  /\ ok res = false)
              \/ (exists e,
                     RoleListing.chain
                       (answers 503 "Service Unavailable"
                          (Throw (SyntaxError "Unexpected token")))
                       (Int 7) (Int 3) = Throw e)).
  { left. eexists. split; reflexivity. }
  split; [exact F|].
  destruct (proj1 (read_fetch_failure_is_absorbed
                     (answers 503 "Service Unavailable"
                        (Throw (SyntaxError "Unexpected token"))))
              (Int 7) (RoleListing.initial RoleListing.scenario_page) F)
    as [Hskill [Hrole [[e [_ [Hlog [Hnet _]]]] Hload]]].
  assert (E : e = ErrorMsg "Network error").
  { apply (Hnet {| status := 503; statusText := "Service Unavailable";
                   json := Throw (SyntaxError "Unexpected token") |});
      reflexivity. }
  subst e.
  split; [exact Hskill|]. split; [exact Hrole|]. split; [exact Hlog|].
  exact (proj2 (Hload eq_refl)).
Defined.

(** C10: when the [role_listings_info] response is an object with no member
    for the requested role id, reading [role_name] of the missing entry
    throws inside the second handler, the [catch] logs it, the page data is
    what it was, and a page that showed the loading placeholder still shows
    it. *)
Theorem missing_listing_is_absorbed (fetch : Fetch) (user : Session)
  (roleid : Num) (st : RolePage.State) (res : Response)
  (members : list (string * JsVal)) :
  fetch (RolePage.request user) = Ok res ->
  ok res = true ->
  json res = Ok (JObj members) ->
  lookup (String_of_Num roleid) members = None ->
  let st' := RolePage.fetchRoles fetch user roleid st in
  RolePage.data st' = RolePage.data st
  /\ RolePage.console st'
     = RolePage.console st
       ++ [LogError "Error fetching role details:"
             (TypeError
                "Cannot read properties of undefined (reading 'role_name')")]
  /\ (RolePage.data st = None -> RolePage.render st' = RolePage.Loading).
Proof.
  intros Hres Hok Hjson Hmiss. cbv zeta.
  rewrite (fetchRoles_caught fetch user roleid st
             (TypeError
                "Cannot read properties of undefined (reading 'role_name')")).
  - split; [reflexivity|]. split; [reflexivity|].
    intros Hnone. unfold RolePage.render. cbn. now rewrite Hnone.
  - unfold RolePage.chain, RolePage.check_ok. rewrite Hres. cbn [bind].
    rewrite Hok, Hjson. cbn [negb bind].
    unfold RolePage.to_page_data. cbn [get]. rewrite Hmiss. reflexivity.
Qed.

Lemma missing_listing_is_absorbed_witness :
  let fetch := answers 200 "OK" (Ok RolePage.one_listing) in
  let res := {| status := 200; statusText := "OK";
                json := Ok RolePage.one_listing |} in
  let st' := RolePage.fetchRoles fetch RoleForm.sample_user (Int 3)
               RolePage.initial in
  fetch (RolePage.request RoleForm.sample_user) = Ok res
  /\ ok res = true
  /\ get RolePage.one_listing (String_of_Num (Int 3)) = Ok JUndefined
  /\ RolePage.data st' = None
  /\ RolePage.console st'
     = [LogError "Error fetching role details:"
          (TypeError
             "Cannot read properties of undefined (reading 'role_name')")]
  /\ (RolePage.data RolePage.initial = None ->
      RolePage.render st' = RolePage.Loading).
Proof.
  split; [reflexivity|]. split; [reflexivity|]. split; [reflexivity|].
  exact (missing_listing_is_absorbed
           (answers 200 "OK" (Ok RolePage.one_listing))
           RoleForm.sample_user (Int 3) RolePage.initial
           {| status := 200; statusText := "OK";
              json := Ok RolePage.one_listing |}
           [("1",
             JObj [("role_name", JStr "Data Engineer");
                   ("role_desc", JStr "Builds pipelines");
                   ("skills",
                    JArr [JObj [("skill_id", JNum (Int 1));
                                ("skill_name", JStr "SQL")]]);
                   ("role_department", JStr "Engineering");
                   ("role_location", JStr "Singapore");
                   ("role_listing_desc", JStr "Open to internal staff")])]
           eq_refl eq_refl eq_refl eq_refl).
Defined.

(** How some malformed skill-match bodies fail inside the second handler. *)
Example body_without_match :
  RoleListing.to_skill_info (JObj [("detail", JStr "Not Found")])
  = Throw (TypeError
             "Cannot read properties of undefined (reading 'active')").
Proof. reflexivity. Qed.

Example body_without_in_progress :
  RoleListing.to_skill_info
    (JObj [("match",
            JObj [("active",
                   JArr [JObj [("skill_id", JNum (Int 1));
                               ("skill_name", JStr "SQL")]]);
                  ("unverified", JArr [])])])
  = Throw (TypeError
             "Cannot read properties of undefined (reading 'skill_name')").
Proof. reflexivity. Qed.

Example body_that_is_a_string :
  RoleListing.to_skill_info (JStr "Internal Server Error")
  = Throw (TypeError
             "Cannot read properties of undefined (reading 'concat')").
Proof. reflexivity. Qed.

(** A body that is not of the documented shape need not fail: entries
    without a name are stored as [undefined] names. *)
Example entries_without_names :
  RoleListing.to_skill_info
    (JObj [("match",
            JObj [("active", JArr [JNum (Int 1)]);
                  ("in_progress", JArr []);
                  ("unverified", JArr [JObj []])])])
  = Ok {| RoleListing.skillObtained := [JUndefined];
          RoleListing.skillMissing := [JUndefined] |}.
Proof. reflexivity. Qed.

(** The listing that is there is shown. *)
Example present_listing_is_shown :
  RolePage.render
    (RolePage.fetchRoles (answers 200 "OK" (Ok RolePage.one_listing))
       RoleForm.sample_user (Int 1) RolePage.initial)
  = RolePage.RoleListingView
      {| RolePage.roleid := Int 1;
         RolePage.roleName := JStr "Data Engineer";
         RolePage.roleDescription := JStr "Builds pipelines";
         RolePage.skillsRequired := [JStr "SQL"];
         RolePage.roleDepartment := JStr "Engineering";
         RolePage.roleLocation := JStr "Singapore";
         RolePage.roleListingDesc := JStr "Open to internal staff" |}.
Proof. reflexivity. Qed.

End ReadSideFacts.

Module RequestFacts.

Import JS Http.

(** C3, as the code has it: the create-role [POST] carries a [role] header
    that is [String(userRole)], the [role_listings_info] fetch carries one
    that is [String(userRole || "")], both the claimed role of a signed-in
    user whose role is a string; the role-skills-match fetch is sent with
    method [GET] and no header at all. *)
Theorem role_header_of_each_request (user : Session) (staffId : Num)
  (data : RoleForm.RoleFormValues) (roleid : Num) :
  header "role" (RoleForm.request user staffId data)
  = Some (ToString (userRole user))
  /\ header "role" (RolePage.request user)
     = Some (ToString (or_else (userRole user) (JStr "")))
  /\ (forall uid r,
         user = Some {| id := uid; role := JStr r |} ->
         header "role" (RoleForm.request user staffId data) = Some r
         /\ header "role" (RolePage.request user) = Some r)
  /\ method (RoleForm.request user staffId data) = "POST"
  /\ method (RolePage.request user) = "GET"
  /\ method (RoleListing.request staffId roleid) = "GET"
  /\ headers (RoleListing.request staffId roleid) = []
  /\ header "role" (RoleListing.request staffId roleid) = None.
Proof.
  split; [reflexivity|]. split; [reflexivity|].
  split; [|repeat split; reflexivity].
  intros uid r ->. split; [reflexivity|].
  unfold header. cbn. unfold or_else. cbn.
  destruct (String.eqb r "") eqn:E; cbn; [|reflexivity].
  apply String.eqb_eq in E. now subst.
Qed.

Lemma role_header_of_each_request_witness :
  let user := RoleForm.sample_user in
  user = Some {| id := "user_2X"; role := JStr "manager" |}
  /\ header "role"
       (RoleForm.request user (Int 7)
          (RoleForm.sample_values RoleForm.autumn_2023)) = Some "manager"
  /\ header "role" (RolePage.request user) = Some "manager".
Proof.
  split; [reflexivity|].
  exact (proj1 (proj2 (proj2 (role_header_of_each_request
                                RoleForm.sample_user (Int 7)
                                (RoleForm.sample_values RoleForm.autumn_2023)
                                (Int 3))))
           "user_2X" "manager" eq_refl).
Defined.

(** C3 as stated fails: the role-skills-match request of staff 7 for role 3
    carries no [role] header. *)
Lemma skill_match_request_has_no_role_header :
  ~ (forall (user : Session) (staffId : Num)
            (data : RoleForm.RoleFormValues) (roleid : Num),
        header "role" (RoleForm.request user staffId data) <> None
        /\ header "role" (RolePage.request user) <> None
        /\ header "role" (RoleListing.request staffId roleid) <> None).
Proof.
  intros H.
  destruct (H RoleForm.sample_user (Int 7)
              (RoleForm.sample_values RoleForm.autumn_2023) (Int 3))
    as [_ [_ Hno]].
  apply Hno. reflexivity.
Qed.

End RequestFacts.

(* ================================================================== *)
(** ** The data table toolbar *)
(* ================================================================== *)

Module ToolbarFacts.

Import JS DataTableToolbar.

Section Table.

Context {TData : Type}.
Variable table : Table TData.

(** For an identifier that is a string, [id ? String(id) : ""] is [id]. *)
Lemma id_or_empty_id (k : string) : id_or_empty k = k.
Proof.
  unfold id_or_empty. destruct (String.eqb k "") eqn:E; [|reflexivity].
  apply String.eqb_eq in E. now subst.
Qed.

Lemma has_column_In (k : string) :
  has_column table k = true <-> In k (column_ids table).
Proof.
  unfold has_column. rewrite existsb_exists. split.
  - intros [x [Hx E]]. apply String.eqb_eq in E. now subst.
  - intros H. exists k. split; [exact H|apply String.eqb_refl].
Qed.

Lemma inherits_In (k : string) :
  inherits k = true <-> In k inherited_names.
Proof.
  unfold inherits. rewrite existsb_exists. split.
  - intros [x [Hx E]]. apply String.eqb_eq in E. now subst.
  - intros H. exists k. split; [exact H|apply String.eqb_refl].
Qed.

(** What [getColumn] answers, by cases: a column is its identifier. *)
Lemma getColumn_cases (k : string) :
  getColumn table k
  = if has_column table k then Some (AColumn {| id := k |})
    else if inherits k then Some (Inherited k) else None.
Proof.
  unfold getColumn.
  destruct (find (fun c => String.eqb (id c) k) (columns table))
    as [[i]|] eqn:F.
  - apply find_some in F. destruct F as [Hin E]. cbn in E.
    apply String.eqb_eq in E. subst i.
    assert (H : has_column table k = true).
    { apply has_column_In. unfold column_ids.
      change k with (id {| id := k |}). apply in_map. exact Hin. }
    rewrite H. reflexivity.
  - assert (H : has_column table k = false).
    { destruct (has_column table k) eqn:H; [|reflexivity].
      apply has_column_In in H. unfold column_ids in H.
      apply in_map_iff in H. destruct H as [c [Ec Hc]].
      pose proof (find_none _ _ F c Hc) as Hn. cbn in Hn.
      rewrite Ec, String.eqb_refl in Hn. discriminate. }
    rewrite H. reflexivity.
Qed.

(** The child of a searchable column, by cases. *)
Lemma search_control_cases (column : DataTableSearchableColumn) :
  search_control table column
  = if has_column table (s_id column)
    then Ok (Some (Input (s_id column)
                     ("Filter " ++ s_title column ++ "...")
                     (nullish_or_empty
                        (getFilterValue table {| id := s_id column |}))))
    else if inherits (s_id column)
         then Throw (TypeError
                "table.getColumn(...)?.getFilterValue is not a function")
         else Ok None.
Proof.
  unfold search_control, filter_value_of.
  rewrite id_or_empty_id, getColumn_cases.
  destruct (has_column table (s_id column)); [reflexivity|].
  destruct (inherits (s_id column)); reflexivity.
Qed.

(** The child of a filterable column, by cases. *)
Lemma filter_control_cases (column : DataTableFilterableColumn) :
  filter_control table column
  = if has_column table (f_id column) || inherits (f_id column)
    then Some (DataTableFacetedFilter (f_id column)
                 (getColumn table (f_id column)) (rows table)
                 (getColumn table "roleName") (f_options column)
                 (f_title column))
    else None.
Proof.
  unfold filter_control.
  rewrite id_or_empty_id, getColumn_cases.
  destruct (has_column table (f_id column)); [reflexivity|].
  destruct (inherits (f_id column)); reflexivity.
Qed.

Lemma plain_id_cases (k : string) :
  plain_id table k -> has_column table k = false -> inherits k = false.
Proof.
  intros Hp Hc. destruct (inherits k) eqn:E; [|reflexivity].
  apply inherits_In in E. apply Hp, has_column_In in E. congruence.
Qed.

(** The search inputs of a configuration of plain identifiers. *)
Lemma mapM_search_control_plain (scs : list DataTableSearchableColumn) :
  (forall column, In column scs -> plain_id table (s_id column)) ->
  mapM (search_control table) scs
  = Ok (map (fun column =>
               if has_column table (s_id column)
               then Some (Input (s_id column)
                            ("Filter " ++ s_title column ++ "...")
                            (nullish_or_empty
                               (getFilterValue table
                                  {| id := s_id column |})))
               else None) scs).
Proof.
  induction scs as [|column scs IH]; intros Hp; [reflexivity|].
  cbn [mapM map]. rewrite search_control_cases.
  rewrite IH by (intros c Hc; apply Hp; now right).
  destruct (has_column table (s_id column)) eqn:Hc; [reflexivity|].
  rewrite (plain_id_cases _ (Hp column (or_introl eq_refl)) Hc).
  reflexivity.
Qed.

(** One searchable column named after an inherited property that is no
    column of the table is enough for the inputs to throw. *)
Lemma mapM_search_control_inherited (scs : list DataTableSearchableColumn) :
  Exists (fun column =>
            In (s_id column) inherited_names
            /\ ~ In (s_id column) (column_ids table)) scs ->
  mapM (search_control table) scs
  = Throw (TypeError
             "table.getColumn(...)?.getFilterValue is not a function").
Proof.
  induction scs as [|column scs IH]; intros Hex;
    [inversion Hex|].
  cbn [mapM]. rewrite search_control_cases.
  destruct (has_column table (s_id column)) eqn:Hc.
  - apply has_column_In in Hc.
    inversion Hex as [? ? [_ Hout]|? ? Hrest]; subst; [tauto|].
    rewrite (IH Hrest). reflexivity.
  - destruct (inherits (s_id column)) eqn:Hi; [reflexivity|].
    inversion Hex as [? ? [Hin _]|? ? Hrest]; subst.
    + apply inherits_In in Hin. congruence.
    + rewrite (IH Hrest). reflexivity.
Qed.

Lemma In_shown (l : list (option (Element TData))) (e : Element TData) :
  In e (shown l) <-> In (Some e) l.
Proof.
  induction l as [|[x|] l IH]; simpl; [tauto| |].
  - rewrite IH. split; intros [H|H]; auto; left; congruence.
  - rewrite IH. split; [auto|]. intros [H|H]; [discriminate|exact H].
Qed.

(** The children that show, of children made by a guarded constructor. *)
Lemma shown_map_guard {A : Type} (p : A -> bool) (g : A -> Element TData)
  (l : list A) :
  shown (map (fun x => if p x then Some (g x) else None) l)
  = map g (filter p l).
Proof.
  induction l as [|x l IH]; [reflexivity|].
  simpl. destruct (p x); simpl; now rewrite IH.
Qed.

Lemma shown_app (l1 l2 : list (option (Element TData))) :
  shown (l1 ++ l2) = shown l1 ++ shown l2.
Proof.
  induction l1 as [|[e|] l1 IH]; simpl; [reflexivity| |]; now rewrite IH.
Qed.

Lemma shown_filter_slot (fcs : list DataTableFilterableColumn) :
  shown (if (0 <? List.length fcs)%nat
         then map (filter_control table) fcs else [None])
  = filters table fcs.
Proof.
  transitivity (shown (map (filter_control table) fcs)).
  - destruct fcs; reflexivity.
  - rewrite (map_ext _ _ filter_control_cases).
    apply (shown_map_guard
             (fun c => has_column table (f_id c) || inherits (f_id c))).
Qed.

Lemma shown_reset_slot :
  @shown TData [if isFiltered table then Some ResetButton else None]
  = if (0 <? List.length (columnFilters table))%nat
    then [ResetButton] else [].
Proof.
  unfold isFiltered. destruct (0 <? _)%nat; reflexivity.
Qed.

(** The toolbar of a configuration whose searchable identifiers are plain. *)
Lemma toolbar_of_plain_search
  (filterableColumns : option (list DataTableFilterableColumn))
  (searchableColumns : option (list DataTableSearchableColumn)) :
  (forall column,
      In column (match searchableColumns with Some l => l | None => [] end) ->
      plain_id table (s_id column)) ->
  DataTableToolbar table filterableColumns searchableColumns
  = Ok (inputs table
          (match searchableColumns with Some l => l | None => [] end)
        ++ filters table
             (match filterableColumns with Some l => l | None => [] end)
        ++ (if (0 <? List.length (columnFilters table))%nat
            then [ResetButton] else [])).
Proof.
  set (fcs := match filterableColumns with Some l => l | None => [] end).
  set (scs := match searchableColumns with Some l => l | None => [] end).
  intros Hp. unfold DataTableToolbar, children. fold fcs. fold scs.
  assert (E : (if (0 <? List.length scs)%nat
               then mapM (search_control table) scs else Ok [None])
              = Ok (if (0 <? List.length scs)%nat
                    then map (fun column =>
                                if has_column table (s_id column)
                                then Some (Input (s_id column)
                                             ("Filter " ++ s_title column
                                              ++ "...")
                                             (nullish_or_empty
                                                (getFilterValue table
                                                   {| id := s_id column |})))
                                else None) scs
                    else [None])).
  { destruct (0 <? List.length scs)%nat; [|reflexivity].
    apply mapM_search_control_plain, Hp. }
  rewrite E. cbn [bind]. rewrite !shown_app. f_equal. f_equal; [|f_equal].
  - transitivity
      (@shown TData (map (fun column =>
                     if has_column table (s_id column)
                     then Some (Input (s_id column)
                                  ("Filter " ++ s_title column ++ "...")
                                  (nullish_or_empty
                                     (getFilterValue table
                                        {| id := s_id column |})))
                     else None) scs)).
    + destruct scs; reflexivity.
    + apply (shown_map_guard (fun c => has_column table (s_id c))).
  - apply shown_filter_slot.
  - apply shown_reset_slot.
Qed.

(** The toolbar of a configuration with a searchable column named after an
    inherited property that is no column. *)
Lemma toolbar_of_inherited_search
  (filterableColumns : option (list DataTableFilterableColumn))
  (searchableColumns : option (list DataTableSearchableColumn)) :
  Exists (fun column =>
            In (s_id column) inherited_names
            /\ ~ In (s_id column) (column_ids table))
    (match searchableColumns with Some l => l | None => [] end) ->
  DataTableToolbar table filterableColumns searchableColumns
  = Throw (TypeError
             "table.getColumn(...)?.getFilterValue is not a function").
Proof.
  set (scs := match searchableColumns with Some l => l | None => [] end).
  intros Hex. unfold DataTableToolbar, children. fold scs.
  destruct scs as [|c scs']; [inversion Hex|].
  change (0 <? List.length (c :: scs'))%nat with true. cbv iota.
  rewrite (mapM_search_control_inherited _ Hex). reflexivity.
Qed.



End Table.

(** Deciding the side conditions on a concrete configuration. *)
Ltac pick_member H :=
  cbn in H;
  repeat (destruct H as [H|H]; [try discriminate H|]);
  try contradiction.




End ToolbarFacts.

(* ================================================================== *)
(** ** The date range picker *)
(* ================================================================== *)

Module DatePickerFacts.

Import DatePickerWithRange.










End DatePickerFacts.

(* ================================================================== *)
(** ** The instant a timestamp denotes *)
(* ================================================================== *)

Module TimestampFacts.

Import JS Date RoleForm.

(** The whole seconds of a time value. *)
Lemma div_of_whole_seconds (t k : Z) :
  0 < k -> (1000 * (t / 1000)) / (1000 * k) = t / (1000 * k).
Proof.
  intros Hk.
  rewrite Z.div_mul_cancel_l by lia.
  rewrite Z.div_div by lia. reflexivity.
Qed.

Lemma Day_of_whole_seconds (t : Z) : Day (1000 * (t / 1000)) = Day t.
Proof. apply (div_of_whole_seconds t 86400). lia. Qed.

Lemma YearFromTime_of_whole_seconds (t : Z) :
  YearFromTime (1000 * (t / 1000)) = YearFromTime t.
Proof. unfold YearFromTime. now rewrite Day_of_whole_seconds. Qed.

Lemma MonthFromTime_of_whole_seconds (t : Z) :
  MonthFromTime (1000 * (t / 1000)) = MonthFromTime t.
Proof.
  unfold MonthFromTime, DayWithinYear, InLeapYear.
  now rewrite YearFromTime_of_whole_seconds, Day_of_whole_seconds.
Qed.

Lemma DateFromTime_of_whole_seconds (t : Z) :
  DateFromTime (1000 * (t / 1000)) = DateFromTime t.
Proof.
  unfold DateFromTime. rewrite MonthFromTime_of_whole_seconds.
  unfold DayWithinYear, InLeapYear.
  now rewrite YearFromTime_of_whole_seconds, Day_of_whole_seconds.
Qed.

Lemma HourFromTime_of_whole_seconds (t : Z) :
  HourFromTime (1000 * (t / 1000)) = HourFromTime t.
Proof.
  unfold HourFromTime. f_equal. apply (div_of_whole_seconds t 3600). lia.
Qed.

Lemma MinFromTime_of_whole_seconds (t : Z) :
  MinFromTime (1000 * (t / 1000)) = MinFromTime t.
Proof.
  unfold MinFromTime. f_equal. apply (div_of_whole_seconds t 60). lia.
Qed.

Lemma SecFromTime_of_whole_seconds (t : Z) :
  SecFromTime (1000 * (t / 1000)) = SecFromTime t.
Proof.
  unfold SecFromTime. f_equal. apply (div_of_whole_seconds t 1). lia.
Qed.

(** The day of the year is the days before its month and its day of the
    month. *)
Lemma day_of_year_from_month_and_date (dwy leap : Z) :
  days_before_month (month_of_day dwy leap) leap
  + (date_of_day dwy leap (month_of_day dwy leap) - 1) = dwy.
Proof.
  unfold month_of_day.
  repeat match goal with
         | |- context [if ?a <? ?b then _ else _] =>
             destruct (Z.ltb_spec a b)
         end; cbv beta iota delta [days_before_month date_of_day]; lia.
Qed.

(** The calendar fields of a time value give back its whole seconds. *)
Lemma UTC_of_fields (t : Z) :
  UTC (YearFromTime t) (MonthFromTime t) (DateFromTime t)
      (HourFromTime t) (MinFromTime t) (SecFromTime t)
  = 1000 * (t / 1000).
Proof.
  unfold UTC, DateFromTime, MonthFromTime.
  change (InLeapYear_of_year (YearFromTime t)) with (InLeapYear t).
  pose proof (day_of_year_from_month_and_date (DayWithinYear t)
                (InLeapYear t)) as H.
  set (a := days_before_month _ _) in *.
  set (b := date_of_day _ _ _) in *.
  assert (Hd : DayFromYear (YearFromTime t) + a + (b - 1) = Day t)
    by (unfold DayWithinYear in H; lia).
  rewrite Hd.
  unfold Day, HourFromTime, MinFromTime, SecFromTime, msPerDay, msPerHour,
    msPerMinute, msPerSecond.
  Z.to_euclidean_division_equations. lia.
Qed.

(** X3: the timestamp drops the milliseconds of the start date and nothing
    else of its instant: a start date and the start of its second give the
    same [role_listing_open], and two start dates with the same calendar
    fields in UTC lie in the same second. *)
Theorem formatDateToISOWithoutZ_whole_seconds (t : Z) :
  formatDateToISOWithoutZ (Time t)
  = formatDateToISOWithoutZ (Time (1000 * (t / 1000)))
  /\ forall t',
       (getUTCFullYear (Time t'), getUTCMonth (Time t'),
        getUTCDate (Time t'), getUTCHours (Time t'),
        getUTCMinutes (Time t'), getUTCSeconds (Time t'))
       = (getUTCFullYear (Time t), getUTCMonth (Time t),
          getUTCDate (Time t), getUTCHours (Time t),
          getUTCMinutes (Time t), getUTCSeconds (Time t)) ->
       t' / 1000 = t / 1000.
Proof.
  split.
  - unfold formatDateToISOWithoutZ, getUTCFullYear, getUTCMonth, getUTCDate,
      getUTCHours, getUTCMinutes, getUTCSeconds, getter.
    now rewrite YearFromTime_of_whole_seconds, MonthFromTime_of_whole_seconds,
      DateFromTime_of_whole_seconds, HourFromTime_of_whole_seconds,
      MinFromTime_of_whole_seconds, SecFromTime_of_whole_seconds.
  - intros t' E. unfold getUTCFullYear, getUTCMonth, getUTCDate, getUTCHours,
      getUTCMinutes, getUTCSeconds, getter in E.
    injection E as Ey Em Ed Eh Emi Es.
    pose proof (UTC_of_fields t) as Ht. pose proof (UTC_of_fields t') as Ht'.
    rewrite Ey, Em, Ed, Eh, Emi, Es in Ht'. lia.
Qed.

Lemma formatDateToISOWithoutZ_whole_seconds_witness :
  let t := UTC 2023 10 3 8 26 40 in
  (getUTCFullYear (Time (t + 999)), getUTCMonth (Time (t + 999)),
   getUTCDate (Time (t + 999)), getUTCHours (Time (t + 999)),
   getUTCMinutes (Time (t + 999)), getUTCSeconds (Time (t + 999)))
  = (getUTCFullYear (Time t), getUTCMonth (Time t), getUTCDate (Time t),
     getUTCHours (Time t), getUTCMinutes (Time t), getUTCSeconds (Time t))
  /\ formatDateToISOWithoutZ (Time (t + 999)) = "2023-11-03T08:26:40"
  /\ (t + 999) / 1000 = t / 1000.
Proof.
  split; [reflexivity|]. split; [reflexivity|].
  exact (proj2 (formatDateToISOWithoutZ_whole_seconds
                  (UTC 2023 10 3 8 26 40))
           (UTC 2023 10 3 8 26 40 + 999) eq_refl).
Defined.

End TimestampFacts.

(* ================================================================== *)
(** ** What a submission does, whatever the server answers *)
(* ================================================================== *)

Module SubmitFacts.

Import JS Http RoleForm.



(** X5: a submission whose request never reaches the server, or whose
    response has a status from 200 to 299 but a body that is not JSON, is
    reported as an error: the destructive notification carries the message
    of what was thrown. *)
Theorem onSubmit_other_failures (fetch : Fetch) (user : Session)
  (staffId : Num) (formattedDate : string) (data : RoleFormValues)
  (st : State) (err : Error) :
  fetch (request user staffId data) = Throw err
  \/ (exists res, fetch (request user staffId data) = Ok res
                  /\ ok res = true /\ json res = Throw err) ->
  toasts (onSubmit fetch user staffId formattedDate data st)
  = toasts st ++ [{| variant := Some "destructive";
                     title := "Error creating role!";
                     description := message err;
                     action_altText := "Dismiss" |}].
Proof.
  intros H. unfold onSubmit.
  destruct H as [Hf|(res & Hf & Hok & Hj)]; rewrite Hf; cbn [bind catch].
  - reflexivity.
  - unfold check_ok. rewrite Hok, Hj. reflexivity.
Qed.

Lemma onSubmit_other_failures_witness :
  let fetch := answers 201 "Created" (Throw (SyntaxError "Unexpected token <"))
  in
  (fetch (request sample_user (Int 7) (sample_values autumn_2023))
   = Throw (SyntaxError "Unexpected token <")
   \/ (exists res,
          fetch (request sample_user (Int 7) (sample_values autumn_2023))
          = Ok res
          /\ ok res = true
          /\ json res = Throw (SyntaxError "Unexpected token <")))
  /\ toasts (onSubmit fetch sample_user (Int 7) "3 November 2023"
               (sample_values autumn_2023) initial)
     = [{| variant := Some "destructive"; title := "Error creating role!";
           description := "Unexpected token <";
           action_altText := "Dismiss" |}].
Proof.
  assert (H : answers 201 "Created" (Throw (SyntaxError "Unexpected token <"))
                (request sample_user (Int 7) (sample_values autumn_2023))
              = Throw (SyntaxError "Unexpected token <")
              \/ (exists res,
                     answers 201 "Created"
                       (Throw (SyntaxError "Unexpected token <"))
                       (request sample_user (Int 7)
                          (sample_values autumn_2023)) = Ok res
                     /\ ok res = true
                     /\ json res = Throw (SyntaxError "Unexpected token <"))).
  { right. eexists. repeat split. }
  split; [exact H|].
  exact (onSubmit_other_failures
           (answers 201 "Created" (Throw (SyntaxError "Unexpected token <")))
           sample_user (Int 7) "3 November 2023" (sample_values autumn_2023)
           initial (SyntaxError "Unexpected token <") H).
Defined.

End SubmitFacts.

(* ================================================================== *)
(** ** The selects of the form *)
(* ================================================================== *)

Module SelectFacts.

Import JS Http RoleForm.

(** Different integers print differently. *)
Lemma String_of_Z_inj (a b : Z) : String_of_Z a = String_of_Z b -> a = b.
Proof. apply NumeralFacts.String_of_Z_injective. Qed.

(** Restricting the catalogue keeps its identifiers distinct. *)
Lemma filteredSkills_NoDup (ids : list Z) (all : list SkillAPIResponse) :
  NoDup (map skill_id all) -> NoDup (map skill_id (filteredSkills ids all)).
Proof.
  unfold filteredSkills. induction all as [|skill rest IH]; intros Hnd.
  - constructor.
  - cbn in Hnd. apply NoDup_cons_iff in Hnd. destruct Hnd as [Hfresh Hrest].
    cbn. destruct (includes ids (skill_id skill)); [|exact (IH Hrest)].
    cbn. apply NoDup_cons_iff. split; [|exact (IH Hrest)].
    intros Hin. apply Hfresh. apply in_map_iff in Hin.
    destruct Hin as [other [Eid Hother]]. apply filter_In in Hother.
    rewrite <- Eid. apply in_map. tauto.
Qed.

Lemma NoDup_String_of_Z (l : list Z) : NoDup l -> NoDup (map String_of_Z l).
Proof.
  apply Injective_map_NoDup. intros x y. apply String_of_Z_inj.
Qed.

(** X6: when the identifiers of the roles and of the managers are safe
    integers, picking an item of the role select and an item of the manager
    select sends the identifiers of that role and of that manager: [role_id]
    is the [role_id] of a role of the list whose name is the label picked,
    and [role_listing_source] is the [staff_id] of a manager of the list
    whose first and last name make the label picked. *)
Theorem picked_items_are_sent (user : Session) (staffId : Num)
  (data : RoleFormValues) (roles : list Role) (st : State)
  (role_item manager_item : SelectOption) :
  Forall (fun role => safe_integer (role_id role)) roles ->
  Forall (fun manager => safe_integer (staff_id manager))
    (managerDetails st) ->
  In role_item (role_items roles) ->
  In manager_item (formattedManagerDetails st) ->
  roleName data = value role_item ->
  roleManager data = value manager_item ->
  exists role manager,
    In role roles /\ In manager (managerDetails st)
    /\ label role_item = role_name role
    /\ label manager_item = (fname manager ++ " " ++ lname manager)%string
    /\ body_member "role_id" (request user staffId data)
       = JNum (Int (role_id role))
    /\ body_member "role_listing_source" (request user staffId data)
       = JNum (Int (staff_id manager)).
Proof.
  intros Hsafe_r Hsafe_m Hr Hm Ename Emanager.
  apply in_map_iff in Hr. destruct Hr as [role [<- Hr]].
  apply in_map_iff in Hm. destruct Hm as [manager [<- Hm]].
  exists role, manager. cbn [value label] in *.
  rewrite Forall_forall in Hsafe_r, Hsafe_m.
  destruct (RoleFormFacts.body_identifiers user staffId data) as [E1 E2].
  rewrite E1, E2, Ename, Emanager.
  rewrite (NumeralFacts.parseInt10_String_of_Z _ (Hsafe_r _ Hr)).
  rewrite (NumeralFacts.parseInt10_String_of_Z _ (Hsafe_m _ Hm)).
  repeat split; assumption.
Qed.

Lemma picked_items_are_sent_witness :
  let roles := [{| role_id := 3; role_name := "Data Engineer" |};
                {| role_id := 4; role_name := "Recruiter" |}] in
  let st := manager_effect
              (Some [{| staff_id := 7; fname := "Ada"; lname := "Tan" |}])
              initial in
  let data := sample_values autumn_2023 in
  Forall (fun role => safe_integer (role_id role)) roles
  /\ Forall (fun manager => safe_integer (staff_id manager))
       (managerDetails st)
  /\ In {| value := "3"; label := "Data Engineer" |} (role_items roles)
  /\ In {| value := "7"; label := "Ada Tan" |} (formattedManagerDetails st)
  /\ exists role manager,
       In role roles /\ In manager (managerDetails st)
       /\ "Data Engineer" = role_name role
       /\ "Ada Tan" = (fname manager ++ " " ++ lname manager)%string
       /\ body_member "role_id" (request sample_user (Int 7) data)
          = JNum (Int (role_id role))
       /\ body_member "role_listing_source" (request sample_user (Int 7) data)
          = JNum (Int (staff_id manager)).
Proof.
  assert (Hr : Forall (fun role => safe_integer (role_id role))
                 [{| role_id := 3; role_name := "Data Engineer" |};
                  {| role_id := 4; role_name := "Recruiter" |}])
    by (repeat constructor; vm_compute; discriminate).
  assert (Hm : Forall (fun manager => safe_integer (staff_id manager))
                 (managerDetails
                    (manager_effect
                       (Some [{| staff_id := 7; fname := "Ada";
                                 lname := "Tan" |}])
                       initial)))
    by (repeat constructor; vm_compute; discriminate).
  split; [exact Hr|]. split; [exact Hm|].
  split; [left; reflexivity|]. split; [left; reflexivity|].
  exact (picked_items_are_sent sample_user (Int 7)
           (sample_values autumn_2023)
           [{| role_id := 3; role_name := "Data Engineer" |};
            {| role_id := 4; role_name := "Recruiter" |}]
           (manager_effect
              (Some [{| staff_id := 7; fname := "Ada"; lname := "Tan" |}])
              initial)
           {| value := "3"; label := "Data Engineer" |}
           {| value := "7"; label := "Ada Tan" |}
           Hr Hm (or_introl eq_refl) (or_introl eq_refl) eq_refl eq_refl).
Defined.

(** X7: after the effect has run on role skills and a catalogue, the skills
    select offers exactly the catalogue entries whose identifier is one of
    the role's, the selected value of the form is the list of all the
    options offered, and nothing else has changed: no request, no
    notification, no other form value. *)
Theorem skills_effect_selects_role_skills (l all : list SkillAPIResponse)
  (st : State) :
  let st' := skills_effect (Some {| role_skills := Some l |}) (Some all) st in
  (forall skill,
      In skill (skillIdList st')
      <-> In skill all /\ exists rs, In rs l /\ skill_id rs = skill_id skill)
  /\ f_skills (form st') = Some (skill_options st')
  /\ (List.length (skillIdList st') <= List.length all)%nat
  /\ network st' = network st
  /\ toasts st' = toasts st
  /\ console st' = console st
  /\ managerDetails st' = managerDetails st
  /\ (f_roleName (form st'), f_listingId (form st'),
      f_roleDescription (form st'), f_roleManager (form st'),
      f_location (form st'), f_departments (form st'),
      f_startDate (form st'))
     = (f_roleName (form st), f_listingId (form st),
        f_roleDescription (form st), f_roleManager (form st),
        f_location (form st), f_departments (form st),
        f_startDate (form st)).
Proof.
  cbv zeta. cbn [skills_effect role_skills option_map].
  split; [|split; [reflexivity|split; [|repeat split]]].
  - intros skill. cbn. unfold filteredSkills. rewrite filter_In.
    rewrite RoleFormFacts.includes_In, in_map_iff.
    split; intros [Hall [rs [H1 H2]]]; (split; [exact Hall|exists rs; auto]).
  - cbn. unfold filteredSkills. apply filter_length_le.
Qed.

(** X8: the effect leaves the state alone until both the role skills and
    the catalogue are there, and when the response has no [role_skills]. *)
Theorem skills_effect_waits (roleSkillsData : option RoleSkillAPIResponse)
  (allSkills : option (list SkillAPIResponse)) (st : State) :
  roleSkillsData = None \/ allSkills = None
  \/ roleSkillsData = Some {| role_skills := None |} ->
  skills_effect roleSkillsData allSkills st = st.
Proof.
  intros [-> | [-> | ->]]; [reflexivity| |].
  - destruct roleSkillsData; reflexivity.
  - destruct allSkills; reflexivity.
Qed.

Lemma skills_effect_waits_witness :
  (Some {| role_skills := None |} = None
   \/ Some [{| skill_id := 1; skill_name := "SQL" |}] = None
   \/ Some {| role_skills := None |} = Some {| role_skills := None |})
  /\ skills_effect (Some {| role_skills := None |})
       (Some [{| skill_id := 1; skill_name := "SQL" |}]) initial
     = initial.
Proof.
  split; [right; right; reflexivity|].
  exact (skills_effect_waits (Some {| role_skills := None |})
           (Some [{| skill_id := 1; skill_name := "SQL" |}]) initial
           (or_intror (or_intror eq_refl))).
Defined.

(** X9: when the identifiers of the catalogue are distinct, so are the
    values of the options of the skills select; the same holds of the items
    of the role select and of the manager select. *)
Theorem select_values_are_distinct :
  (forall (l all : list SkillAPIResponse) (st : State),
      NoDup (map skill_id all) ->
      NoDup (map value
               (skill_options
                  (skills_effect (Some {| role_skills := Some l |})
                     (Some all) st))))
  /\ (forall roles : list Role,
         NoDup (map role_id roles) ->
         NoDup (map value (role_items roles)))
  /\ (forall st : State,
         NoDup (map staff_id (managerDetails st)) ->
         NoDup (map value (formattedManagerDetails st))).
Proof.
  split; [|split].
  - intros l all st Hnd. cbn. unfold skill_options. cbn.
    rewrite map_map. cbn.
    rewrite <- (map_map skill_id String_of_Z).
    apply NoDup_String_of_Z, filteredSkills_NoDup, Hnd.
  - intros roles Hnd. unfold role_items. rewrite map_map. cbn.
    rewrite <- (map_map role_id String_of_Z).
    apply NoDup_String_of_Z, Hnd.
  - intros st Hnd. unfold formattedManagerDetails. rewrite map_map. cbn.
    rewrite <- (map_map staff_id String_of_Z).
    apply NoDup_String_of_Z, Hnd.
Qed.

Lemma select_values_are_distinct_witness :
  let all := [{| skill_id := 1; skill_name := "SQL" |};
              {| skill_id := 2; skill_name := "Go" |};
              {| skill_id := 10; skill_name := "Rust" |}] in
  NoDup (map skill_id all)
  /\ map value
       (skill_options
          (skills_effect
             (Some {| role_skills :=
                        Some [{| skill_id := 10; skill_name := "Rust" |};
                              {| skill_id := 1; skill_name := "SQL" |}] |})
             (Some all) initial))
     = ["1"; "10"]
  /\ NoDup (map value
              (skill_options
                 (skills_effect
                    (Some {| role_skills :=
                               Some [{| skill_id := 10;
                                        skill_name := "Rust" |};
                                     {| skill_id := 1;
                                        skill_name := "SQL" |}] |})
                    (Some all) initial))).
Proof.
  assert (Hnd : NoDup (map skill_id
                         [{| skill_id := 1; skill_name := "SQL" |};
                          {| skill_id := 2; skill_name := "Go" |};
                          {| skill_id := 10; skill_name := "Rust" |}])).
  { repeat constructor; simpl; intuition discriminate. }
  split; [exact Hnd|]. split; [reflexivity|].
  exact (proj1 select_values_are_distinct
           [{| skill_id := 10; skill_name := "Rust" |};
            {| skill_id := 1; skill_name := "SQL" |}]
           [{| skill_id := 1; skill_name := "SQL" |};
            {| skill_id := 2; skill_name := "Go" |};
            {| skill_id := 10; skill_name := "Rust" |}]
           initial Hnd).
Defined.

End SelectFacts.

(* ================================================================== *)
(** ** The two read-side fetches, whatever the server answers *)
(* ================================================================== *)

Module ReadFacts.

Import JS Http.

(** The second handler of [fetchRoles] on an entry that reads as [info]. *)
Lemma to_page_data_of_listing (roleid : Num) (apiData entry : JsVal)
  (info : Listing.SpecificRoleInfo) :
  get apiData (String_of_Num roleid) = Ok entry ->
  Listing.is_listing entry info ->
  RolePage.to_page_data roleid apiData = Ok (Listing.page_of roleid info).
Proof.
  intros He (Hn & Hd & (sk & Hs & (items & -> & Hitems)) & Hdep & Hloc & Hl).
  unfold RolePage.to_page_data. rewrite He. cbn [bind].
  rewrite Hn, Hd, Hs, Hdep, Hloc, Hl. cbn [bind map_array].
  rewrite (RoleListingFacts.mapM_skill_names items _ Hitems). reflexivity.
Qed.

(** The page data the second handler builds is for the route parameter. *)
Lemma to_page_data_roleid (roleid : Num) (apiData : JsVal)
  (page : RolePage.PageData) :
  RolePage.to_page_data roleid apiData = Ok page ->
  RolePage.roleid page = roleid.
Proof.
  unfold RolePage.to_page_data. intros Ht.
  repeat match type of Ht with
         | bind ?m _ = _ => destruct m; cbn [bind] in Ht; try discriminate
         end.
  injection Ht as <-. reflexivity.
Qed.

(** What [fetchRoles] leaves in [data] when there was nothing. *)
Lemma fetchRoles_data (fetch : Fetch) (user : Session) (roleid : Num)
  (st : RolePage.State) (page : RolePage.PageData) :
  RolePage.data st = None ->
  RolePage.data (RolePage.fetchRoles fetch user roleid st) = Some page ->
  RolePage.roleid page = roleid.
Proof.
  intros Hnone. unfold RolePage.fetchRoles.
  destruct (RolePage.chain fetch user roleid) as [p|err] eqn:Hc;
    cbn [bind catch].
  - cbn. intros E. injection E as <-.
    unfold RolePage.chain in Hc.
    destruct (fetch _) as [res|]; cbn [bind] in Hc; [|discriminate].
    destruct (RolePage.check_ok res) as [apiData|]; cbn [bind] in Hc;
      [|discriminate].
    apply (to_page_data_roleid _ _ _ Hc).
  - cbn. rewrite Hnone. discriminate.
Qed.

(** X10: when the [role_listings_info] response has a status from 200 to
    299 and its entry for the requested role reads as a listing, the page
    stores the listing under the display names, the required skills being
    the names of the listing's skills in their order and the role id being
    the route parameter; it logs nothing and renders the listing. *)
Theorem fetchRoles_maps_listing (fetch : Fetch) (user : Session)
  (roleid : Num) (st : RolePage.State) (res : Response)
  (apiData entry : JsVal) (info : Listing.SpecificRoleInfo) :
  fetch (RolePage.request user) = Ok res ->
  ok res = true ->
  json res = Ok apiData ->
  get apiData (String_of_Num roleid) = Ok entry ->
  Listing.is_listing entry info ->
  let st' := RolePage.fetchRoles fetch user roleid st in
  RolePage.data st'
  = Some {| RolePage.roleid := roleid;
            RolePage.roleName := JStr (Listing.role_name info);
            RolePage.roleDescription := JStr (Listing.role_desc info);
            RolePage.skillsRequired :=
              map (fun s => JStr (RoleListing.skill_name s))
                (Listing.skills info);
            RolePage.roleDepartment := JStr (Listing.role_department info);
            RolePage.roleLocation := JStr (Listing.role_location info);
            RolePage.roleListingDesc :=
              JStr (Listing.role_listing_desc info) |}
  /\ RolePage.console st' = RolePage.console st
  /\ RolePage.render st'
     = RolePage.RoleListingView (Listing.page_of roleid info).
Proof.
  intros Hf Hok Hj He Hl. cbv zeta.
  unfold RolePage.fetchRoles, RolePage.chain. rewrite Hf. cbn [bind].
  unfold RolePage.check_ok. rewrite Hok, Hj. cbn [negb bind].
  rewrite (to_page_data_of_listing roleid apiData entry info He Hl).
  repeat split.
Qed.

Lemma fetchRoles_maps_listing_witness :
  let fetch := answers 200 "OK" (Ok RolePage.one_listing) in
  let res := {| status := 200; statusText := "OK";
                json := Ok RolePage.one_listing |} in
  let st' := RolePage.fetchRoles fetch RoleForm.sample_user (Int 1)
               RolePage.initial in
  fetch (RolePage.request RoleForm.sample_user) = Ok res
  /\ ok res = true
  /\ (exists entry,
         get RolePage.one_listing (String_of_Num (Int 1)) = Ok entry
         /\ Listing.is_listing entry Listing.data_engineer)
  /\ RolePage.data st'
     = Some {| RolePage.roleid := Int 1;
               RolePage.roleName := JStr "Data Engineer";
               RolePage.roleDescription := JStr "Builds pipelines";
               RolePage.skillsRequired := [JStr "SQL"];
               RolePage.roleDepartment := JStr "Engineering";
               RolePage.roleLocation := JStr "Singapore";
               RolePage.roleListingDesc := JStr "Open to internal staff" |}
  /\ RolePage.console st' = []
  /\ RolePage.render st'
     = RolePage.RoleListingView
         (Listing.page_of (Int 1) Listing.data_engineer).
Proof.
  assert (L : Listing.is_listing
                (JObj [("role_name", JStr "Data Engineer");
                       ("role_desc", JStr "Builds pipelines");
                       ("skills",
                        JArr [JObj [("skill_id", JNum (Int 1));
                                    ("skill_name", JStr "SQL")]]);
                       ("role_department", JStr "Engineering");
                       ("role_location", JStr "Singapore");
                       ("role_listing_desc", JStr "Open to internal staff")])
                Listing.data_engineer).
  { repeat split; try reflexivity.
    eexists. split; [reflexivity|]. eexists. split; [reflexivity|].
    repeat constructor. }
  split; [reflexivity|]. split; [reflexivity|].
  split; [eexists; split; [reflexivity|exact L]|].
  exact (fetchRoles_maps_listing
           (answers 200 "OK" (Ok RolePage.one_listing))
           RoleForm.sample_user (Int 1) RolePage.initial
           {| status := 200; statusText := "OK";
              json := Ok RolePage.one_listing |}
           RolePage.one_listing _ Listing.data_engineer
           eq_refl eq_refl eq_refl eq_refl L).
Defined.


(** X12: the detail component that the page renders asks for the skill
    match of the role the page was opened for: the page data it is given
    holds the route parameter, not an identifier taken from the response, so
    the one request it sends on mount is for that staff member and that
    role. *)
Theorem detail_asks_for_the_route_role (fetch fetch' : Fetch)
  (user : Session) (roleid staffId : Num) (st : RolePage.State)
  (page : RolePage.PageData) :
  RolePage.data st = None ->
  RolePage.render (RolePage.fetchRoles fetch user roleid st)
  = RolePage.RoleListingView page ->
  let detail := RoleListing.fetchRoleSkillMatch fetch' staffId
                  (RoleListing.initial page) in
  RoleListing.network detail = [RoleListing.request staffId roleid]
  /\ url (RoleListing.request staffId roleid)
     = ("/api/staff/role-skills-match/" ++ String_of_Num staffId ++ "/"
        ++ String_of_Num roleid)%string
  /\ RoleListing.roleInfo detail = page.
Proof.
  intros Hnone Hview. cbv zeta.
  assert (Hid : RolePage.roleid page = roleid).
  { apply (fetchRoles_data fetch user roleid st page Hnone).
    unfold RolePage.render in Hview.
    destruct (RolePage.data (RolePage.fetchRoles fetch user roleid st));
      [|discriminate].
    now injection Hview as ->. }
  unfold RoleListing.fetchRoleSkillMatch. cbn [RoleListing.initial
    RoleListing.roleInfo]. rewrite Hid.
  destruct (RoleListing.chain fetch' staffId roleid); cbn;
    repeat split.
Qed.

Lemma detail_asks_for_the_route_role_witness :
  let fetch := answers 200 "OK" (Ok RolePage.one_listing) in
  let fetch' := answers 200 "OK"
                  (Ok (RoleListing.json_of_response
                         RoleListing.scenario_match)) in
  let page := Listing.page_of (Int 1) Listing.data_engineer in
  let detail := RoleListing.fetchRoleSkillMatch fetch' (Int 7)
                  (RoleListing.initial page) in
  RolePage.data RolePage.initial = None
  /\ RolePage.render
       (RolePage.fetchRoles fetch RoleForm.sample_user (Int 1)
          RolePage.initial)
     = RolePage.RoleListingView page
  /\ RoleListing.network detail = [RoleListing.request (Int 7) (Int 1)]
  /\ url (RoleListing.request (Int 7) (Int 1))
     = "/api/staff/role-skills-match/7/1"
  /\ RoleListing.roleInfo detail = page.
Proof.
  split; [reflexivity|]. split; [reflexivity|].
  exact (detail_asks_for_the_route_role
           (answers 200 "OK" (Ok RolePage.one_listing))
           (answers 200 "OK"
              (Ok (RoleListing.json_of_response RoleListing.scenario_match)))
           RoleForm.sample_user (Int 1) (Int 7) RolePage.initial
           (Listing.page_of (Int 1) Listing.data_engineer)
           eq_refl eq_refl).
Defined.

End ReadFacts.

(* ================================================================== *)
(** ** What the toolbar shows *)
(* ================================================================== *)

Module ToolbarContents.

Import JS DataTableToolbar.

(** X13: over tables that have no column named [__proto__]. When every
    searchable identifier that names an inherited property is also a column
    of the table, the toolbar shows, in this order, one search input for
    each searchable column that the table has, in the order they are
    configured, then one faceted filter for each filterable column whose
    identifier the lookup answers (a column of the table, or a name every
    object inherits), wired to what the lookup answers, then the Reset
    button when some column filter is set. A property that is left out
    counts as no column. An input shows the filter value of its column, and
    the empty string when that column has no filter. When some searchable
    identifier names an inherited property that is no column of the table,
    the toolbar throws a [TypeError] instead. *)
Theorem toolbar_contents {TData : Type} (table : Table TData)
  (filterableColumns : option (list DataTableFilterableColumn))
  (searchableColumns : option (list DataTableSearchableColumn)) :
  let fcs := match filterableColumns with Some l => l | None => [] end in
  let scs := match searchableColumns with Some l => l | None => [] end in
  let stray k := In k inherited_names /\ ~ In k (column_ids table) in
  ~ In "__proto__" (column_ids table) ->
  (Forall (fun column => ~ stray (s_id column)) scs ->
   DataTableToolbar table filterableColumns searchableColumns
   = Ok (map (fun column =>
                Input (s_id column) ("Filter " ++ s_title column ++ "...")
                  (match lookup (s_id column) (columnFilters table) with
                   | Some JUndefined | Some JNull | None => JStr ""
                   | Some v => v
                   end))
           (filter (fun column => has_column table (s_id column)) scs)
         ++ map (fun column =>
                   DataTableFacetedFilter (f_id column)
                     (if has_column table (f_id column)
                      then Some (AColumn {| id := f_id column |})
                      else Some (Inherited (f_id column)))
                     (rows table)
                     (if has_column table "roleName"
                      then Some (AColumn {| id := "roleName" |})
                      else None)
                     (f_options column) (f_title column))
              (filter (fun column =>
                         has_column table (f_id column)
                         || inherits (f_id column)) fcs)
         ++ (if (0 <? List.length (columnFilters table))%nat
             then [ResetButton] else [])))
  /\ (Exists (fun column => stray (s_id column)) scs ->
      DataTableToolbar table filterableColumns searchableColumns
      = Throw (TypeError
                 "table.getColumn(...)?.getFilterValue is not a function")).
Proof.
  intros fcs scs stray _. split.
  - intros Hplain.
    rewrite (ToolbarFacts.toolbar_of_plain_search table).
    + fold fcs. fold scs. f_equal. f_equal; [|f_equal].
      * unfold inputs. apply map_ext. intros c.
        unfold getFilterValue. cbn [id].
        destruct (lookup (s_id c) (columnFilters table)) as [[]|];
          reflexivity.
      * unfold filters. apply map_ext_in. intros c Hc.
        apply filter_In in Hc. destruct Hc as [_ Hc].
        rewrite !ToolbarFacts.getColumn_cases.
        destruct (has_column table (f_id c)); cbn [orb] in Hc.
        -- reflexivity.
        -- rewrite Hc. reflexivity.
    + fold scs. intros column Hin Hi.
      rewrite Forall_forall in Hplain. specialize (Hplain column Hin).
      destruct (has_column table (s_id column)) eqn:Hh.
      * now apply ToolbarFacts.has_column_In.
      * exfalso. apply Hplain. split; [exact Hi|]. intros H.
        apply ToolbarFacts.has_column_In in H. congruence.
  - intros Hex. apply (ToolbarFacts.toolbar_of_inherited_search table).
    exact Hex.
Qed.

Lemma toolbar_contents_witness :
  DataTableToolbar sample_table (Some sample_filterable)
    (Some sample_searchable)
  = Ok [Input "roleName" "Filter Role..." (JStr "");
        DataTableFacetedFilter "department"
          (Some (AColumn {| id := "department" |}))
          (rows sample_table) (Some (AColumn {| id := "roleName" |}))
          [{| o_label := "Engineering"; o_value := "Engineering" |}]
          "Department";
        ResetButton]
  /\ DataTableToolbar sample_table (Some (inherited_filterable
                                          ++ sample_filterable))
       (Some sample_searchable)
     = Ok [Input "roleName" "Filter Role..." (JStr "");
           DataTableFacetedFilter "constructor"
             (Some (Inherited "constructor")) (rows sample_table)
             (Some (AColumn {| id := "roleName" |})) [] "Constructor";
           DataTableFacetedFilter "department"
             (Some (AColumn {| id := "department" |}))
             (rows sample_table) (Some (AColumn {| id := "roleName" |}))
             [{| o_label := "Engineering"; o_value := "Engineering" |}]
             "Department";
           ResetButton]
  /\ DataTableToolbar sample_table (Some sample_filterable)
       (Some (sample_searchable ++ inherited_searchable))
     = Throw (TypeError
                "table.getColumn(...)?.getFilterValue is not a function").
Proof.
  assert (Hproto : ~ In "__proto__" (column_ids sample_table)).
  { intros H. ToolbarFacts.pick_member H. }
  split; [|split].
  - apply (proj1 (toolbar_contents sample_table (Some sample_filterable)
                    (Some sample_searchable) Hproto)).
    repeat constructor; intros [Hi _]; ToolbarFacts.pick_member Hi.
  - apply (proj1 (toolbar_contents sample_table
                    (Some (inherited_filterable ++ sample_filterable))
                    (Some sample_searchable) Hproto)).
    repeat constructor; intros [Hi _]; ToolbarFacts.pick_member Hi.
  - apply (proj2 (toolbar_contents sample_table (Some sample_filterable)
                    (Some (sample_searchable ++ inherited_searchable))
                    Hproto)).
    apply Exists_cons_tl, Exists_cons_tl, Exists_cons_hd.
    split; [cbn; tauto|]. intros H. ToolbarFacts.pick_member H.
Defined.

End ToolbarContents.

(* ================================================================== *)
(** ** Selections in the date range picker *)
(* ================================================================== *)

Module PickerFacts.

Import DatePickerWithRange.

Lemma notified_step (inst : Instance) (e : Event) :
  notified (step inst e)
  = notified inst ++ reported [e].
Proof.
  destruct e as [value|[|] sel]; simpl.
  - unfold rerender. destruct (Object_is (deps inst) value); simpl;
      now rewrite app_nil_r.
  - reflexivity.
  - now rewrite app_nil_r.
Qed.

Lemma reported_app (l1 l2 : list Event) :
  reported (l1 ++ l2) = reported l1 ++ reported l2.
Proof.
  induction l1 as [|[v|[|] s] l1 IH]; simpl; [reflexivity| | |];
    now rewrite IH.
Qed.

(** X14: [onChange] is called once for every selection made while the
    property is given, with that selection and in the order the selections
    are made, and for nothing else: a new external value changes what the
    picker shows and is never reported back. *)
Theorem onChange_reports_selections_only (value0 : Value)
  (events : list Event) :
  notified (run (mount value0) events) = reported events
  /\ forall value,
       notified (rerender value (run (mount value0) events))
       = reported events.
Proof.
  assert (H : forall inst,
             notified (run inst events) = notified inst ++ reported events).
  { induction events as [|e events IH]; intros inst; simpl.
    - now rewrite app_nil_r.
    - rewrite IH, notified_step. simpl.
      rewrite <- app_assoc. f_equal.
      change (e :: events) with ([e] ++ events).
      destruct e as [v|[|] s]; reflexivity. }
  split.
  - rewrite H. reflexivity.
  - intros value.
    change (rerender value (run (mount value0) events))
      with (step (run (mount value0) events) (Rerender value)).
    rewrite notified_step, H. simpl. now rewrite app_nil_r.
Qed.

(** X15: after a selection the picker shows it. It still does after the
    next render when the parent gives back the selection as the new value
    (controlled use), and also when the parent gives the value it gave
    before (the parent ignored the selection): the selection is kept until
    the external value changes. *)
Theorem selection_is_kept (inst : Instance) (onChange : bool)
  (sel value : Value) :
  date (handleDateChange onChange sel inst) = sel
  /\ date (rerender sel (handleDateChange onChange sel inst)) = sel
  /\ (Object_is (deps inst) value = true ->
      date (rerender value (handleDateChange onChange sel inst)) = sel).
Proof.
  assert (Hd : date (handleDateChange onChange sel inst) = sel)
    by (destruct onChange; reflexivity).
  assert (Hdeps : deps (handleDateChange onChange sel inst) = deps inst)
    by (destruct onChange; reflexivity).
  split; [exact Hd|]. split.
  - unfold rerender.
    destruct (Object_is (deps (handleDateChange onChange sel inst)) sel);
      [exact Hd|reflexivity].
  - intros H. unfold rerender. rewrite Hdeps, H. exact Hd.
Qed.

Lemma selection_is_kept_witness :
  let inst := mount (Some first_week) in
  Object_is (deps inst) (Some first_week) = true
  /\ date (handleDateChange true (Some second_week) inst) = Some second_week
  /\ date (rerender (Some first_week)
             (handleDateChange true (Some second_week) inst))
     = Some second_week.
Proof.
  split; [reflexivity|]. split; [reflexivity|].
  exact (proj2 (proj2 (selection_is_kept (mount (Some first_week)) true
                         (Some second_week) (Some first_week)))
           eq_refl).
Defined.

End PickerFacts.
